(** * Equipment life-cycle dashboard: a model of the data pipeline

    The development embeds the data-processing functions of
    [dados.py], [atualizar_mes.py], [Visao_Geral.py],
    [pages/1_Analise_Mensal.py] and [pages/2_Auditoria.py] as functions
    on lists of rows, and proves properties of the monthly recalculation
    of the RELATORIO sheet, of the cleaning of the OS log and of the
    aggregations read by the pages.

    A DataFrame is a list of rows in frame order; a row is a record with
    one field per column the code reads; a cell that pandas holds as
    NaN, NaT or None is [None]. *)

From stdpp Require Import base gmap strings list.
From Stdlib Require Import Ascii ZArith QArith Lia.
From Stdlib Require Import Sorting.Sorted Sorting.Permutation Structures.OrdersEx.
Close Scope Q_scope.

(** ** Python and pandas primitives *)

Module Py.

(** Nanoseconds since the epoch, the payload of a pandas Timestamp. *)
Definition Timestamp : Type := Z.

(** [str.upper] and the case-insensitive [Series.str.contains] follow
    the Unicode tables of the interpreter; the pipeline is stated over
    any implementation of the two. *)
Class Text : Type := {
  upper : string -> string;
  contains_nocase : string -> string -> bool
}.

(** [pat in s] on Python strings. *)
Fixpoint contains (pat s : string) : bool :=
  String.prefix pat s ||
  match s with
  | EmptyString => false
  | String _ s' => contains pat s'
  end.

Definition ascii_upper (c : ascii) : ascii :=
  let n := nat_of_ascii c in
  if (97 <=? n)%nat && (n <=? 122)%nat then ascii_of_nat (n - 32) else c.

Fixpoint str_upper (s : string) : string :=
  match s with
  | EmptyString => EmptyString
  | String c s' => String (ascii_upper c) (str_upper s')
  end.

(** The two primitives on text whose letters are all ASCII: the
    instance used to run the pipeline on concrete sheets. *)
Definition ascii_text : Text :=
  {| upper := str_upper;
     contains_nocase := fun pat s => contains (str_upper pat) (str_upper s) |}.

(** [Series.astype(str)]: a missing cell prints as "nan". *)
Definition astype_str (c : option string) : string := default "nan" c.

(** [Series.str.replace(r'\.0$', '', regex=True)]: [$] matches at the
    end of the text and also just before a final newline. *)
Fixpoint strip_dot0 (s : string) : string :=
  match s with
  | String "."%char (String "0"%char EmptyString) => EmptyString
  | String "."%char (String "0"%char (String "010"%char EmptyString)) =>
      String "010"%char EmptyString
  | String c s' => String c (strip_dot0 s')
  | EmptyString => EmptyString
  end.

(** [Series.str.replace(r'\\,', '', regex=True)]: the pattern is a
    backslash followed by a comma. *)
Fixpoint strip_bslash_comma (s : string) : string :=
  match s with
  | String "\"%char (String ","%char s') => strip_bslash_comma s'
  | String c s' => String c (strip_bslash_comma s')
  | EmptyString => EmptyString
  end.

(** [Series.fillna(d)]. *)
Definition fillna {A} (d : A) (c : option A) : option A := Some (default d c).

(** [dict(pairs)]: a later pair overrides an earlier one with the same key. *)
Definition dict `{Countable K} {A} (pairs : list (K * A)) : gmap K A :=
  foldl (fun m p => <[p.1 := p.2]> m) ∅ pairs.

(** [Series.map(d)] on one cell: a value that is not a key becomes missing. *)
Definition map_dict (d : gmap string string) (c : option string) : option string :=
  c ≫= (d !!.).

(** [Series.replace(d)] on one cell: a value that is a key is replaced. *)
Definition replace (d : gmap string string) (c : option string) : option string :=
  (fun s => default s (d !! s)) <$> c.

Definition notna {A} (c : option A) : bool := bool_decide (is_Some c).

(** Ascending order on a column with missing cells placed last
    ([na_position='last'], the default of [sort_values]). *)
Definition cell_compare {A} (cmp : A -> A -> comparison) (a b : option A) : comparison :=
  match a, b with
  | Some x, Some y => cmp x y
  | Some _, None => Lt
  | None, Some _ => Gt
  | None, None => Eq
  end.

Definition date_leb (a b : option Timestamp) : bool :=
  match cell_compare Z.compare a b with Gt => false | _ => true end.

Section Sort.
Context {A : Type} (leb : A -> A -> bool).

Fixpoint insert_sorted (x : A) (l : list A) : list A :=
  match l with
  | [] => [x]
  | y :: l' => if leb x y then x :: y :: l' else y :: insert_sorted x l'
  end.

(** [DataFrame.sort_values]: ascending, rows with equal keys kept in
    frame order. *)
Definition sort_values (l : list A) : list A := foldr insert_sorted [] l.
End Sort.

(** [GroupBy.last()] on one column of one group: the last cell that is
    not missing, in frame order. *)
Definition last_notna {A B} (col : A -> option B) (group : list A) : option B :=
  foldl (fun acc r => match col r with Some v => Some v | None => acc end) None group.

(** Python's [/] on the integers that [len] returns. *)
Inductive result (A : Type) : Type :=
| Ok (a : A)
| ZeroDivisionError.
Arguments Ok {A} a.
Arguments ZeroDivisionError {A}.

Definition truediv (n d : Z) : result Q :=
  if (d =? 0)%Z then ZeroDivisionError else Ok (Qred (inject_Z n / inject_Z d)).

#[global] Instance result_ret : MRet result := fun A a => Ok a.
#[global] Instance result_bind : MBind result := fun A B f x =>
  match x with
  | Ok a => f a
  | ZeroDivisionError => ZeroDivisionError
  end.
#[global] Instance result_fmap : FMap result := fun A B f x =>
  match x with
  | Ok a => Ok (f a)
  | ZeroDivisionError => ZeroDivisionError
  end.

(** [num / den if den > 0 else 0], the guarded quotient of two counts. *)
Definition taxa (num den : nat) : result Q :=
  if (0 <? den)%nat then truediv (Z.of_nat num) (Z.of_nat den) else Ok 0%Q.

(** [num / den * 100 if den > 0 else 0]. *)
Definition taxa_pct (num den : nat) : result Q :=
  if (0 <? den)%nat
  then (fun q => Qred (q * 100)) <$> truediv (Z.of_nat num) (Z.of_nat den)
  else Ok 0%Q.

(** [==] between two cells: a missing cell equals nothing. *)
Definition cell_eqb (a b : option string) : bool :=
  match a, b with
  | Some x, Some y => bool_decide (x = y)
  | _, _ => false
  end.

(** The values of a column in order of first appearance
    ([drop_duplicates], [unique]); two missing cells count as one. *)
Fixpoint unique_from `{EqDecision A} (seen l : list A) : list A :=
  match l with
  | [] => []
  | x :: l' =>
      if bool_decide (x ∈ seen) then unique_from seen l'
      else x :: unique_from (x :: seen) l'
  end.

Definition unique `{EqDecision A} (l : list A) : list A := unique_from [] l.

(** [Series.min()] on timestamps: missing cells are skipped. *)
Definition min_notna (l : list (option Timestamp)) : option Timestamp :=
  foldr (fun c acc =>
           match c, acc with
           | Some x, Some y => Some (Z.min x y)
           | Some x, None => Some x
           | None, _ => acc
           end) None l.

(** Descending order on a column, missing cells still last. *)
Definition date_geb (a b : option Timestamp) : bool :=
  match a, b with
  | Some x, Some y => (y <=? x)%Z
  | Some _, None => true
  | None, Some _ => false
  | None, None => true
  end.

End Py.
Import Py.

(** ** The sheets of the workbook *)

(** Sheet OS: one row per service order. [id_patrimonio] holds the text
    that [astype(str)] gives for the cell. *)
Record OSRow : Type := {
  ID_Ordem_de_Servico : option string;
  data_fechamento_OS : option Timestamp;
  Descricao_Assunto : option string;
  ID_cliente : option string;
  Almoxarifado : option string;
  descricao_produto : option string;
  id_patrimonio : option string;
  status_comodato : option string;
  ASSUNTO_PADRONIZADO : option string
}.

(** Sheet NOTAS: one row per purchased unit. *)
Record NotaRow : Type := {
  Numero_NF : option string;
  Data_NF : option Timestamp;
  Descricao : option string;
  N_Serie : option string;
  MAC_nota : option string;
  nota_id_patrimonio : option string
}.

(** Sheet RELATORIO: the current state of every purchased unit. *)
Record RelatorioRow : Type := {
  NF : option string;
  DATA_NF : option Timestamp;
  MAC : option string;
  SERIE : option string;
  PATRIMONIO : option string;
  DESCRICAO : option string;
  ASSUNTO_OS : option string;
  DATA_ULTIMA_OS : option Timestamp;
  STATUS_COMODATO : option string;
  ALMOXARIFADO : option string;
  STATUS_EQUIPAMENTO : option string;
  LOCAL_EQUIPAMENTO : option string
}.

(** Sheet config: the DE/PARA vocabulary and the MODELO/OBSOLETO? table
    share the rows of one sheet. *)
Record ConfigRow : Type := {
  DE : option string;
  PARA : option string;
  MODELO : option string;
  OBSOLETO_q : option string
}.

(** Sheet CONTRATOS: one row per unit registered on the network. *)
Record ContratoRow : Type := {
  status_contrato : option string;
  Descricao_eqpto : option string;
  contrato_id_patrimonio : option string
}.

Record Workbook : Type := {
  NOTAS : list NotaRow;
  OS : list OSRow;
  RELATORIO : list RelatorioRow;
  CONTRATOS : list ContratoRow;
  config : list ConfigRow
}.

(** A row of OS with the computed column CICLO. *)
Record OSCiclo : Type := {
  os_row : OSRow;
  CICLO : nat
}.

Definition set_id_patrimonio (v : option string) (r : OSRow) : OSRow :=
  {| ID_Ordem_de_Servico := ID_Ordem_de_Servico r;
     data_fechamento_OS := data_fechamento_OS r;
     Descricao_Assunto := Descricao_Assunto r;
     ID_cliente := ID_cliente r;
     Almoxarifado := Almoxarifado r;
     descricao_produto := descricao_produto r;
     id_patrimonio := v;
     status_comodato := status_comodato r;
     ASSUNTO_PADRONIZADO := ASSUNTO_PADRONIZADO r |}.

Definition set_ASSUNTO_PADRONIZADO (v : option string) (r : OSRow) : OSRow :=
  {| ID_Ordem_de_Servico := ID_Ordem_de_Servico r;
     data_fechamento_OS := data_fechamento_OS r;
     Descricao_Assunto := Descricao_Assunto r;
     ID_cliente := ID_cliente r;
     Almoxarifado := Almoxarifado r;
     descricao_produto := descricao_produto r;
     id_patrimonio := id_patrimonio r;
     status_comodato := status_comodato r;
     ASSUNTO_PADRONIZADO := v |}.

(** ** Steps shared by [dados.py] and [atualizar_mes.py] *)

(** [PADRONIZACAO_ASSUNTO], the same table in both files, in the order
    of the literal. *)
Definition PADRONIZACAO_ASSUNTO_items : list (string * string) :=
  [ ("INSTALACAO INTERNET", "INSTALACAO");
    ("Instalação Internet (descontinuado)", "INSTALACAO");
    ("Instalação Repetidor Wirelles", "MESH");
    ("Instalação Serviço Cortesia", "INSTALACAO CORTESIA");
    ("Instalação de Telefone", "INSTALACAO TELEFONE");
    ("MANUTENCAO DE REDE", "MANUTENCAO");
    ("MANUTENÇÃO TÉCNICA", "MANUTENCAO");
    ("MUDANÇA DE ENDEREÇO", "MUDANCA ENDEREÇO");
    ("SERVIÇOS TÉCNICOS DIVERSOS", "MESH");
    ("UPGRADE - EQUIPAMENTO", "UPGRADE");
    ("0.1.4 RETIRADA DE REPETIDOR WIRELESS", "RETIRADA REPETIDOR");
    ("0.1.5 RETIRADA ORDEM DE COLETA", "RETIRADA COLETA");
    ("0.1.6 RETIRADA PONTO DE INTERNET", "RETIRADA DE PONTO");
    ("RETIRADA ORDEM DE COLETA", "RETIRADA COLETA");
    ("RETIRADA PONTO DE INTERNET", "RETIRADA DE PONTO") ].

Definition PADRONIZACAO_ASSUNTO : gmap string string :=
  dict PADRONIZACAO_ASSUNTO_items.

(** [dict(zip(config['DE'].dropna(), config['PARA'].dropna()))]: each
    column drops its own missing cells before the two are zipped. *)
Definition assunto_map_of (cfg : list ConfigRow) : gmap string string :=
  dict (zip (omap DE cfg) (omap PARA cfg)).

(** [df.dropna(subset=['id_patrimonio'])]. *)
Definition dropna_id_patrimonio (os : list OSRow) : list OSRow :=
  filter (fun r => is_Some (id_patrimonio r)) os.

(** The order of [sort_values(['id_patrimonio', 'data_fechamento_OS'])]. *)
Definition os_key_compare (r1 r2 : OSRow) : comparison :=
  match cell_compare String_as_OT.compare (id_patrimonio r1) (id_patrimonio r2) with
  | Eq => cell_compare Z.compare (data_fechamento_OS r1) (data_fechamento_OS r2)
  | c => c
  end.

Definition os_key_leb (r1 r2 : OSRow) : bool :=
  match os_key_compare r1 r2 with Gt => false | _ => true end.

(** The order of [sort_values('data_fechamento_OS')]. *)
Definition os_date_leb (r1 r2 : OSRow) : bool :=
  date_leb (data_fechamento_OS r1) (data_fechamento_OS r2).

(** [groupby('id_patrimonio').cumcount() + 1]: a running count per unit,
    in frame order. [seen] holds, per unit, the rows numbered so far. *)
Fixpoint cumcount_from (seen : gmap (option string) nat) (os : list OSRow) : list OSCiclo :=
  match os with
  | [] => []
  | r :: os' =>
      let c := default 0%nat (seen !! id_patrimonio r) in
      {| os_row := r; CICLO := S c |} :: cumcount_from (<[id_patrimonio r := S c]> seen) os'
  end.

(** The CICLO column of both files: sort by unit and closing date, then
    number the rows of each unit. *)
Definition calcular_ciclo (os : list OSRow) : list OSCiclo :=
  cumcount_from ∅ (sort_values os_key_leb os).

(** The rows of one unit, in frame order. *)
Definition grupo (u : string) (os : list OSCiclo) : list OSCiclo :=
  filter (fun r => id_patrimonio (os_row r) = Some u) os.

(** [groupby('id_patrimonio')['CICLO'].last()] looked up at one unit:
    missing when the unit has no row, as after the left merge. *)
Definition ultimo_ciclo (os : list OSCiclo) (u : string) : option nat :=
  last_notna (fun r => Some (CICLO r)) (grupo u os).

(** [lambda x: 'REUTILIZADO' if pd.notna(x) and x > 1 else 'NOVO']. *)
Definition status_equipamento (x : option nat) : string :=
  match x with
  | Some c => if (1 <? c)%nat then "REUTILIZADO" else "NOVO"
  | None => "NOVO"
  end.

(** ** [dados.py] *)

Module Dados.

(** A row of RELATORIO after [load_data]: the identifiers are text,
    ULTIMO_CICLO comes from the merge, STATUS_EQUIPAMENTO is
    recomputed. *)
Record RelatorioCarregado : Type := {
  rel_row : RelatorioRow;
  ULTIMO_CICLO : option nat
}.

(** A row of CONTRATOS after [load_data]. *)
Record ContratoCarregado : Type := {
  contrato_row : ContratoRow;
  OBSOLETO : option string;
  id_patrimonio_str : string
}.

Record Limpeza : Type := {
  os_total_bruto : nat;
  os_sem_patrimonio : nat;
  os_duplicadas : nat
}.

Record Data : Type := {
  notas : list NotaRow;
  os : list OSCiclo;
  relatorio : list RelatorioCarregado;
  contratos : list ContratoCarregado;
  config_out : list ConfigRow;
  obs_map : gmap (option string) (option string);
  assunto_map : gmap string string;
  limpeza : Limpeza
}.

(** The clean-up of an identifier column in [load_data]. *)
Definition normalizar_id (c : option string) : string :=
  strip_dot0 (strip_bslash_comma (astype_str c)).

Definition normalizar_relatorio (r : RelatorioRow) : RelatorioRow :=
  {| NF := Some (normalizar_id (NF r));
     DATA_NF := DATA_NF r;
     MAC := MAC r;
     SERIE := SERIE r;
     PATRIMONIO := Some (normalizar_id (PATRIMONIO r));
     DESCRICAO := DESCRICAO r;
     ASSUNTO_OS := ASSUNTO_OS r;
     DATA_ULTIMA_OS := DATA_ULTIMA_OS r;
     STATUS_COMODATO := STATUS_COMODATO r;
     ALMOXARIFADO := ALMOXARIFADO r;
     STATUS_EQUIPAMENTO := STATUS_EQUIPAMENTO r;
     LOCAL_EQUIPAMENTO := LOCAL_EQUIPAMENTO r |}.

Definition set_STATUS_EQUIPAMENTO (v : option string) (r : RelatorioRow) : RelatorioRow :=
  {| NF := NF r;
     DATA_NF := DATA_NF r;
     MAC := MAC r;
     SERIE := SERIE r;
     PATRIMONIO := PATRIMONIO r;
     DESCRICAO := DESCRICAO r;
     ASSUNTO_OS := ASSUNTO_OS r;
     DATA_ULTIMA_OS := DATA_ULTIMA_OS r;
     STATUS_COMODATO := STATUS_COMODATO r;
     ALMOXARIFADO := ALMOXARIFADO r;
     STATUS_EQUIPAMENTO := v;
     LOCAL_EQUIPAMENTO := LOCAL_EQUIPAMENTO r |}.

(** [DataFrame.duplicated(subset=['ID _Ordem de Serviço'], keep='first')]:
    a row is flagged when an earlier row has the same identifier; two
    missing identifiers count as the same. *)
Fixpoint duplicated_from (seen : gset (option string)) (os : list OSRow) : list bool :=
  match os with
  | [] => []
  | r :: os' =>
      bool_decide (ID_Ordem_de_Servico r ∈ seen)
      :: duplicated_from ({[ID_Ordem_de_Servico r]} ∪ seen) os'
  end.

Definition duplicated (os : list OSRow) : list bool := duplicated_from ∅ os.

(** [DataFrame.drop_duplicates(subset=[...], keep='first')]: the rows
    that [duplicated] does not flag. *)
Definition drop_duplicates (os : list OSRow) : list OSRow :=
  (filter (fun p => p.2 = false) (zip os (duplicated os))).*1.

(** [MAPEAMENTO_DE_PARA]: the canonical table and two ignored subjects. *)
Definition MAPEAMENTO_DE_PARA_items : list (string * string) :=
  PADRONIZACAO_ASSUNTO_items ++
  [ ("Emitir Taxa", "****"); ("POS VENDA (BRASILIA)", "****") ].

Definition modelos_nao_obsoletos : list string :=
  [ "ONT ZTE F6600P"; "ONU ZTE F6600P"; "ROTEADOR ZTE H3601 MESH" ].

Definition nova_linha_modelo (modelo : string) : ConfigRow :=
  {| DE := None; PARA := None; MODELO := Some modelo; OBSOLETO_q := Some "Não" |}.

Definition nova_linha_de_para (de_val para_val : string) : ConfigRow :=
  {| DE := Some de_val; PARA := Some para_val; MODELO := None; OBSOLETO_q := None |}.

(** [obs_map] and the models appended to config when the table does
    not list them. A missing MODELO is a key of its own. *)
Definition classificar (cfg : list ConfigRow)
  : gmap (option string) (option string) * list ConfigRow :=
  foldl (fun acc modelo =>
           if bool_decide (is_Some (acc.1 !! Some modelo)) then acc
           else (<[Some modelo := Some "Não"]> acc.1, acc.2 ++ [nova_linha_modelo modelo]))
        (dict (zip (MODELO <$> cfg) (OBSOLETO_q <$> cfg)), cfg)
        modelos_nao_obsoletos.

(** The DE/PARA pairs appended to config when DE does not list them. *)
Definition completar_de_para (cfg : list ConfigRow) : list ConfigRow :=
  let de_existentes := omap DE cfg in
  foldl (fun acc p =>
           if bool_decide (p.1 ∈ de_existentes) then acc
           else acc ++ [nova_linha_de_para p.1 p.2])
        cfg MAPEAMENTO_DE_PARA_items.

(** The OS log of [load_data] before CICLO: rows without a unit are
    dropped and counted, identifiers cleaned, duplicated orders dropped
    and counted, subjects renamed to the canonical vocabulary. *)
Definition limpar_os (os0 : list OSRow) : list OSRow * Limpeza :=
  let sem := length (filter (fun r => id_patrimonio r = None) os0) in
  let os1 := (fun r => set_id_patrimonio (Some (normalizar_id (id_patrimonio r))) r)
               <$> dropna_id_patrimonio os0 in
  let dup := length (filter (fun b => b = true) (duplicated os1)) in
  let os2 := drop_duplicates os1 in
  let os3 := (fun r => set_ASSUNTO_PADRONIZADO
                         (replace PADRONIZACAO_ASSUNTO (ASSUNTO_PADRONIZADO r)) r)
               <$> os2 in
  (os3, {| os_total_bruto := length os0;
           os_sem_patrimonio := sem;
           os_duplicadas := dup |}).

(** The left merge of RELATORIO with the last CICLO of each unit (one
    row per unit on the right, so one row out per row in), and the
    status computed from it. *)
Definition carregar_relatorio (os_c : list OSCiclo) (r : RelatorioRow) : RelatorioCarregado :=
  let r1 := normalizar_relatorio r in
  let uc := ultimo_ciclo os_c (normalizar_id (PATRIMONIO r)) in
  {| rel_row := set_STATUS_EQUIPAMENTO (Some (status_equipamento uc)) r1;
     ULTIMO_CICLO := uc |}.

Definition carregar_contrato (obs : gmap (option string) (option string))
    (c : ContratoRow) : ContratoCarregado :=
  {| contrato_row := c;
     OBSOLETO := fillna "Não" (mjoin (obs !! Descricao_eqpto c));
     id_patrimonio_str := strip_dot0 (astype_str (contrato_id_patrimonio c)) |}.

Definition load_data (wb : Workbook) : Data :=
  let '(os_limpo, lim) := limpar_os (OS wb) in
  let os_c := calcular_ciclo os_limpo in
  let '(obs, cfg1) := classificar (config wb) in
  let cfg2 := completar_de_para cfg1 in
  {| notas := NOTAS wb;
     os := os_c;
     relatorio := carregar_relatorio os_c <$> RELATORIO wb;
     contratos := carregar_contrato obs <$> CONTRATOS wb;
     config_out := cfg2;
     obs_map := obs;
     assunto_map := assunto_map_of cfg2;
     limpeza := lim |}.

(** A comparison with a missing timestamp is false. *)
Definition ts_leb (a b : option Timestamp) : bool :=
  match a, b with
  | Some x, Some y => (x <=? y)%Z
  | _, _ => false
  end.

Definition get_os_periodo (os_df : list OSCiclo) (data_inicio data_fim : option Timestamp)
  : list OSCiclo :=
  filter (fun r => ts_leb data_inicio (data_fechamento_OS (os_row r)) = true
                   /\ ts_leb (data_fechamento_OS (os_row r)) data_fim = true) os_df.

(** [str.replace('.0', '', regex=False)]: every occurrence is removed. *)
Fixpoint remove_dot0 (s : string) : string :=
  match s with
  | String "."%char (String "0"%char s') => remove_dot0 s'
  | String c s' => String c (remove_dot0 s')
  | EmptyString => EmptyString
  end.

Definition enriquecer_com_relatorio (patrimonios : list (option string))
    (rel : list RelatorioCarregado) : list RelatorioCarregado :=
  let pat_set : gset string := list_to_set (omap id patrimonios) in
  filter (fun r => remove_dot0 (astype_str (PATRIMONIO (rel_row r))) ∈ pat_set) rel.

End Dados.

(** ** [atualizar_mes.py] *)

Module AtualizarMes.

(** The month's file as read: which of the two subject columns it has,
    and its rows. *)
Record ArquivoOS : Type := {
  tem_ASSUNTO_PADRONIZADO : bool;
  tem_Descricao_Assunto : bool;
  linhas : list OSRow
}.

(** [df['Descrição Assunto'].map(assunto_map).fillna('****')]. *)
Definition gerar_assunto (assunto_map : gmap string string) (r : OSRow) : OSRow :=
  set_ASSUNTO_PADRONIZADO (fillna "****" (map_dict assunto_map (Descricao_Assunto r))) r.

(** [df['ASSUNTO PADRONIZADO'].replace(PADRONIZACAO_ASSUNTO)]. *)
Definition repadronizar (r : OSRow) : OSRow :=
  set_ASSUNTO_PADRONIZADO (replace PADRONIZACAO_ASSUNTO (ASSUNTO_PADRONIZADO r)) r.

(** [None] is [sys.exit(1)]: neither subject column is in the file. *)
Definition padronizar_colunas (df_novo : ArquivoOS) (cfg : list ConfigRow)
  : option (list OSRow) :=
  let gerado : option (list OSRow) :=
    if tem_ASSUNTO_PADRONIZADO df_novo then Some (linhas df_novo)
    else if tem_Descricao_Assunto df_novo
         then Some (gerar_assunto (assunto_map_of cfg) <$> linhas df_novo)
         else None in
  fmap (M := list) repadronizar <$> gerado.

(** [integrar_os]: the duplicated orders of the month's file are
    dropped, then the orders whose identifier, as text, is already in
    the base; the rest is appended to the base. The second component is
    the number of orders appended. An order identifier is held as the
    text that [astype(str)] gives for the cell, so that cells of one
    column are equal exactly when their texts are. *)
Definition integrar_os (df_novo df_base : list OSRow) : list OSRow * nat :=
  let dupl_interno := length (filter (fun b => b = true) (Dados.duplicated df_novo)) in
  let df_novo := if (0 <? dupl_interno)%nat then Dados.drop_duplicates df_novo else df_novo in
  let ids_base : gset string := list_to_set (omap ID_Ordem_de_Servico df_base) in
  let novos := filter (fun r => astype_str (ID_Ordem_de_Servico r) ∉ ids_base) df_novo in
  if bool_decide (length novos = 0%nat) then (df_base, 0%nat)
  else (df_base ++ novos, length novos).

(** The cells that [groupby('id_patrimonio').last()] gives for one
    unit: each column on its own. *)
Record UltimaOS : Type := {
  ult_data_fechamento_OS : option Timestamp;
  ult_ASSUNTO_PADRONIZADO : option string;
  ult_status_comodato : option string;
  ult_Almoxarifado : option string
}.

Definition set_LOCAL_EQUIPAMENTO (v : option string) (r : RelatorioRow) : RelatorioRow :=
  {| NF := NF r;
     DATA_NF := DATA_NF r;
     MAC := MAC r;
     SERIE := SERIE r;
     PATRIMONIO := PATRIMONIO r;
     DESCRICAO := DESCRICAO r;
     ASSUNTO_OS := ASSUNTO_OS r;
     DATA_ULTIMA_OS := DATA_ULTIMA_OS r;
     STATUS_COMODATO := STATUS_COMODATO r;
     ALMOXARIFADO := ALMOXARIFADO r;
     STATUS_EQUIPAMENTO := STATUS_EQUIPAMENTO r;
     LOCAL_EQUIPAMENTO := v |}.

(** [dropna(subset=['id_patrimonio'])], then the identifier as text
    without a final ".0". *)
Definition limpar_patrimonios (os : list OSRow) : list OSRow :=
  (fun r => set_id_patrimonio (Some (strip_dot0 (astype_str (id_patrimonio r)))) r)
    <$> dropna_id_patrimonio os.

Definition PATRIMONIO_STR (n : NotaRow) : string :=
  strip_dot0 (astype_str (nota_id_patrimonio n)).

(** [os_df.sort_values('data_fechamento_OS')]. Rows with the same
    closing date are kept in frame order here; NumPy's default sort
    promises no order among them, and no statement below relies on one. *)
Definition os_sorted (os_df : list OSRow) : list OSRow :=
  sort_values os_date_leb os_df.

(** [ultima_os] looked up at one unit; every cell is missing when the
    unit has no row, as after the left merge. *)
Definition ultima_os (sorted : list OSRow) (u : string) : UltimaOS :=
  let g := filter (fun r => id_patrimonio r = Some u) sorted in
  {| ult_data_fechamento_OS := last_notna data_fechamento_OS g;
     ult_ASSUNTO_PADRONIZADO := last_notna ASSUNTO_PADRONIZADO g;
     ult_status_comodato := last_notna status_comodato g;
     ult_Almoxarifado := last_notna Almoxarifado g |}.

Section WithText.
Context `{Text}.

Definition inferir_local (row : RelatorioRow) : string :=
  let status := astype_str (STATUS_COMODATO row) in
  let almox := astype_str (ALMOXARIFADO row) in
  if contains "RMA" (upper almox) then "RMA"
  else if contains "Emprestado" status then "INSTALADO"
  else if contains "Descontinuado" almox || contains "DESCONTINUADO" (upper almox)
       then "DESCONTINUADO"
  else if existsb (fun x => contains x (upper almox))
                  ["ALMOX"; "PRINCIPAL"; "DISTRIBUIC"; "CONFERIDO"]
       then "EM ESTOQUE"
  else if bool_decide (status = "Sem Uso") then "COM TÉCNICO"
  else "COM TÉCNICO".

(** One row of [rel_final]: the NOTAS row, the two left merges and
    the derived columns. *)
Definition linha_relatorio (sorted : list OSRow) (ciclos : list OSCiclo)
    (n : NotaRow) : RelatorioRow :=
  let pat := PATRIMONIO_STR n in
  let ult := ultima_os sorted pat in
  let rel_final :=
    {| NF := Numero_NF n;
       DATA_NF := Data_NF n;
       MAC := MAC_nota n;
       SERIE := N_Serie n;
       PATRIMONIO := Some pat;
       DESCRICAO := Descricao n;
       ASSUNTO_OS :=
         replace PADRONIZACAO_ASSUNTO (fillna "SEM OS" (ult_ASSUNTO_PADRONIZADO ult));
       DATA_ULTIMA_OS := ult_data_fechamento_OS ult;
       STATUS_COMODATO := fillna "Sem Uso" (ult_status_comodato ult);
       ALMOXARIFADO := fillna "" (ult_Almoxarifado ult);
       STATUS_EQUIPAMENTO := Some (status_equipamento (ultimo_ciclo ciclos pat));
       LOCAL_EQUIPAMENTO := None |} in
  set_LOCAL_EQUIPAMENTO (Some (inferir_local rel_final)) rel_final.

(** The sheet RELATORIO is deleted and written again from NOTAS and
    OS; the other sheets are kept. *)
Definition recalcular_relatorio (data_file : Workbook) : Workbook :=
  let os_df := limpar_patrimonios (OS data_file) in
  let sorted := os_sorted os_df in
  let os_sorted_ciclo := calcular_ciclo os_df in
  {| NOTAS := NOTAS data_file;
     OS := OS data_file;
     RELATORIO := linha_relatorio sorted os_sorted_ciclo <$> NOTAS data_file;
     CONTRATOS := CONTRATOS data_file;
     config := config data_file |}.
End WithText.

End AtualizarMes.

(** ** [Visao_Geral.py] *)

Module VisaoGeral.
Import Dados.

Definition local_is (v : string) (r : RelatorioCarregado) : bool :=
  cell_eqb (LOCAL_EQUIPAMENTO (rel_row r)) (Some v).

Definition status_is (v : string) (r : RelatorioCarregado) : bool :=
  cell_eqb (STATUS_EQUIPAMENTO (rel_row r)) (Some v).

(** [len(df[mask])]. *)
Definition conta {A} (mask : A -> bool) (df : list A) : nat :=
  length (filter (fun r => mask r = true) df).

Record KPIs : Type := {
  total_rede : nat;
  total_com_nf : nat;
  instalados : nat;
  em_estoque : nat;
  em_rma : nat;
  com_tecnico : nat;
  taxa_utilizacao : Q;
  negativados : nat
}.

(** The obsolescence counters of the source are left out; nothing
    divides by them. *)
Definition calcular_kpis_parque (contratos : list ContratoCarregado)
    (relatorio : list RelatorioCarregado) : result KPIs :=
  let total := length relatorio in
  let inst := conta (local_is "INSTALADO") relatorio in
  tx ← taxa_pct inst total;
  mret {| total_rede :=
            conta (fun c => cell_eqb (status_contrato (contrato_row c)) (Some "Ativo")) contratos;
          total_com_nf := total;
          instalados := inst;
          em_estoque := conta (local_is "EM ESTOQUE") relatorio;
          em_rma := conta (local_is "RMA") relatorio;
          com_tecnico := conta (local_is "COM TÉCNICO") relatorio;
          taxa_utilizacao := tx;
          negativados :=
            conta (fun c => cell_eqb (status_contrato (contrato_row c)) (Some "Negativado"))
                  contratos |}.

(** A row of the summary by invoice and model; its OBSOLETO column is
    left out. *)
Record ResumoNF : Type := {
  res_NF : option string;
  res_MODELO : option string;
  res_DATA : option Timestamp;
  COMPRADOS : nat;
  ATIVADOS_NOVOS : nat;
  TAXA_ATIVACAO : Q;
  ATIVADOS_REUTIL : nat;
  EM_ESTOQUE : nat;
  PERC_ESTOQUE : Q;
  EM_RMA : nat;
  PERC_RMA : Q;
  COM_TECNICO : nat
}.

(** The body of the loop over the combinations of NF and DESCRICAO. *)
Definition resumo_combinacao (relatorio : list RelatorioCarregado)
    (comb : option string * option string) : result ResumoNF :=
  let '(nf, modelo) := comb in
  let df_nf := filter (fun r => cell_eqb (NF (rel_row r)) nf = true
                                /\ cell_eqb (DESCRICAO (rel_row r)) modelo = true)
                      relatorio in
  let comprados := length df_nf in
  let ativados_novos :=
    conta (fun r => local_is "INSTALADO" r && status_is "NOVO" r) df_nf in
  let ativados_reutil :=
    conta (fun r => local_is "INSTALADO" r && status_is "REUTILIZADO" r) df_nf in
  let estoque := conta (local_is "EM ESTOQUE") df_nf in
  let rma := conta (local_is "RMA") df_nf in
  t_ativ ← taxa ativados_novos comprados;
  p_estoque ← taxa estoque comprados;
  p_rma ← taxa rma comprados;
  mret {| res_NF := nf;
          res_MODELO := modelo;
          res_DATA := min_notna ((fun r => DATA_NF (rel_row r)) <$> df_nf);
          COMPRADOS := comprados;
          ATIVADOS_NOVOS := ativados_novos;
          TAXA_ATIVACAO := t_ativ;
          ATIVADOS_REUTIL := ativados_reutil;
          EM_ESTOQUE := estoque;
          PERC_ESTOQUE := p_estoque;
          EM_RMA := rma;
          PERC_RMA := p_rma;
          COM_TECNICO := conta (local_is "COM TÉCNICO") df_nf |}.

Definition gerar_resumo_nf (relatorio : list RelatorioCarregado) : result (list ResumoNF) :=
  let combinacoes :=
    unique ((fun r => (NF (rel_row r), DESCRICAO (rel_row r))) <$> relatorio) in
  rows ← mapM (resumo_combinacao relatorio) combinacoes;
  mret (sort_values (fun a b => date_geb (res_DATA a) (res_DATA b)) rows).

End VisaoGeral.

(** ** [pages/1_Analise_Mensal.py] *)

Module AnaliseMensal.
Import Dados.

Record Ativacao : Type := {
  atv_NF : string;
  atv_Modelo : string;
  atv_Data_NF : option Timestamp;
  Comprados_Total_NF : nat;
  Ativados : nat;
  Taxa : Q
}.

Record Manutencao : Type := {
  total : nat;
  novos : nat;
  reutilizados : nat;
  pct_novos : Q;
  pct_reutilizados : Q
}.

Definition assunto_is (tipo : string) (r : OSCiclo) : bool :=
  cell_eqb (ASSUNTO_PADRONIZADO (os_row r)) (Some tipo).

(** The order of the group keys of [groupby(['NF', 'DESCRICAO'])]. *)
Definition par_leb (a b : string * string) : bool :=
  match String_as_OT.compare a.1 b.1 with
  | Lt => true
  | Gt => false
  | Eq => match String_as_OT.compare a.2 b.2 with Gt => false | _ => true end
  end.

(** The keys of [groupby(['NF', 'DESCRICAO'])]: a row with a missing
    key is in no group. *)
Definition chaves_nf_modelo (rel : list RelatorioCarregado) : list (string * string) :=
  sort_values par_leb
    (unique (omap (fun r => match NF (rel_row r), DESCRICAO (rel_row r) with
                            | Some nf, Some modelo => Some (nf, modelo)
                            | _, _ => None
                            end) rel)).

Section WithText.
Context `{Text}.

(** [Series.str.contains(pat, case=False, na=False)]. *)
Definition str_contains (pat : string) (c : option string) : bool :=
  match c with
  | Some s => contains_nocase pat s
  | None => false
  end.

Definition linha_ativacao (relatorio rel_enriq : list RelatorioCarregado)
    (chave : string * string) : result Ativacao :=
  let '(nf, modelo) := chave in
  let grupo := filter (fun r => NF (rel_row r) = Some nf
                                /\ DESCRICAO (rel_row r) = Some modelo) rel_enriq in
  let total_nf :=
    VisaoGeral.conta (fun r => cell_eqb (NF (rel_row r)) (Some nf)
                               && cell_eqb (DESCRICAO (rel_row r)) (Some modelo))
                     relatorio in
  let ativados := length grupo in
  tx ← taxa ativados total_nf;
  mret {| atv_NF := nf;
          atv_Modelo := modelo;
          atv_Data_NF := min_notna ((fun r => DATA_NF (rel_row r)) <$> grupo);
          Comprados_Total_NF := total_nf;
          Ativados := ativados;
          Taxa := tx |}.

(** The installations closed in the period, by invoice and model,
    and their total. *)
Definition calcular_ativacoes (os_df : list OSCiclo) (relatorio : list RelatorioCarregado)
    (data_inicio data_fim : option Timestamp) : result (list Ativacao * nat) :=
  let os_per := get_os_periodo os_df data_inicio data_fim in
  let os_inst :=
    filter (fun r => str_contains "INSTALAC" (ASSUNTO_PADRONIZADO (os_row r)) = true)
           os_per in
  let patrimonios := unique (omap (fun r => id_patrimonio (os_row r)) os_inst) in
  let rel_enriq := enriquecer_com_relatorio (Some <$> patrimonios) relatorio in
  tabela ← mapM (linha_ativacao relatorio rel_enriq) (chaves_nf_modelo rel_enriq);
  let df := sort_values (fun a b => (Ativados b <=? Ativados a)%nat) tabela in
  mret (df, foldr Nat.add 0%nat (Ativados <$> df)).

(** The installations closed up to [data_fim], by invoice and model; the
    columns Ativados and Taxa hold 'Ativados Acumulado' and 'Taxa
    Acumulada'. *)
Definition calcular_ativacoes_acumuladas (os_df : list OSCiclo)
    (relatorio : list RelatorioCarregado) (data_fim : option Timestamp)
  : result (list Ativacao) :=
  let os_acum :=
    filter (fun r => ts_leb (data_fechamento_OS (os_row r)) data_fim = true) os_df in
  let os_inst :=
    filter (fun r => str_contains "INSTALAC" (ASSUNTO_PADRONIZADO (os_row r)) = true)
           os_acum in
  let patrimonios := unique (omap (fun r => id_patrimonio (os_row r)) os_inst) in
  let rel_enriq := enriquecer_com_relatorio (Some <$> patrimonios) relatorio in
  tabela ← mapM (linha_ativacao relatorio rel_enriq) (chaves_nf_modelo rel_enriq);
  mret (sort_values (fun a b => (Ativados b <=? Ativados a)%nat) tabela).

(** The count of withdrawal orders closed in the period, as the page
    computes it for the selected month and for the month before. *)
Definition os_retirada_periodo (os_df : list OSCiclo)
    (data_inicio data_fim : option Timestamp) : nat :=
  length (filter (fun r => str_contains "RETIRADA" (ASSUNTO_PADRONIZADO (os_row r)) = true)
                 (get_os_periodo os_df data_inicio data_fim)).
End WithText.

Definition manutencao_tipo (os_per : list OSCiclo) (tipo : string) : result Manutencao :=
  let os_tipo := filter (fun r => assunto_is tipo r = true) os_per in
  let n_total := length os_tipo in
  let n_novos := VisaoGeral.conta (fun r => bool_decide (CICLO r = 1%nat)) os_tipo in
  let n_reut := VisaoGeral.conta (fun r => (1 <? CICLO r)%nat) os_tipo in
  p_novos ← taxa n_novos n_total;
  p_reut ← taxa n_reut n_total;
  mret {| total := n_total;
          novos := n_novos;
          reutilizados := n_reut;
          pct_novos := p_novos;
          pct_reutilizados := p_reut |}.

Definition calcular_manutencao (os_df : list OSCiclo)
    (data_inicio data_fim : option Timestamp) : result (list (string * Manutencao)) :=
  let os_per := get_os_periodo os_df data_inicio data_fim in
  mapM (fun tipo => m ← manutencao_tipo os_per tipo; mret (tipo, m))
       ["MANUTENCAO"; "MESH"; "UPGRADE"].

End AnaliseMensal.

(** ** [pages/2_Auditoria.py] *)

Module Auditoria.
Import Dados.

Record Integridade : Type := {
  int_os_sem_patrimonio : nat;
  pat_relatorio_sem_os : gset string;
  qtd_pat_sem_os : nat;
  pat_os_sem_relatorio : gset string;
  qtd_pat_os_sem_rel : nat;
  pat_contratos_sem_nf : gset string;
  qtd_sem_nf : nat;
  qtd_assunto_nao_mapeado : nat;
  total_pat_relatorio : nat;
  total_pat_os : nat;
  total_pat_contratos : nat
}.

(** The two checks on models and on raw subjects against config are
    left out. *)
Definition calcular_integridade (os_df : list OSCiclo) (relatorio : list RelatorioCarregado)
    (contratos : list ContratoCarregado) (lim : Limpeza) : Integridade :=
  let pat_rel : gset string := list_to_set (omap (fun r => PATRIMONIO (rel_row r)) relatorio) in
  let pat_os : gset string := list_to_set (omap (fun r => id_patrimonio (os_row r)) os_df) in
  let pat_sem_os := pat_rel ∖ pat_os in
  let pat_os_sem_rel := pat_os ∖ pat_rel in
  let pat_contratos : gset string := list_to_set (id_patrimonio_str <$> contratos) in
  let pat_sem_nf := pat_contratos ∖ pat_rel in
  {| int_os_sem_patrimonio := os_sem_patrimonio lim;
     pat_relatorio_sem_os := pat_sem_os;
     qtd_pat_sem_os := size pat_sem_os;
     pat_os_sem_relatorio := pat_os_sem_rel;
     qtd_pat_os_sem_rel := size pat_os_sem_rel;
     pat_contratos_sem_nf := pat_sem_nf;
     qtd_sem_nf := size pat_sem_nf;
     qtd_assunto_nao_mapeado :=
       VisaoGeral.conta (AnaliseMensal.assunto_is "****") os_df;
     total_pat_relatorio := size pat_rel;
     total_pat_os := size pat_os;
     total_pat_contratos := size pat_contratos |}.

Record QualidadeIngestao : Type := {
  total_os : nat;
  os_bruto : nat;
  qual_os_sem_patrimonio : nat;
  duplicados_removidos : nat
}.

(** The counters of the ingestion tab; its monthly coverage table is
    left out. With no closing date in the log the page shows zero
    orders in use. *)
Definition calcular_qualidade_ingestao (os_df : list OSCiclo) (lim : Limpeza)
    : QualidadeIngestao :=
  let datas := omap (fun r => data_fechamento_OS (os_row r)) os_df in
  {| total_os := match datas with [] => 0%nat | _ => length os_df end;
     os_bruto := os_total_bruto lim;
     qual_os_sem_patrimonio := os_sem_patrimonio lim;
     duplicados_removidos := os_duplicadas lim |}.

Record Cruzamentos : Type := {
  ativos_sem_relatorio : nat;
  total_ativos : nat;
  cobertura_relatorio : Q;
  rel_sem_contrato_ativo : nat
}.

Definition calcular_cruzamentos (relatorio : list RelatorioCarregado)
    (contratos : list ContratoCarregado) : result Cruzamentos :=
  let ativos :=
    filter (fun c => cell_eqb (status_contrato (contrato_row c)) (Some "Ativo") = true)
           contratos in
  let pat_ativos : gset string := list_to_set (id_patrimonio_str <$> ativos) in
  let pat_rel : gset string := list_to_set (omap (fun r => PATRIMONIO (rel_row r)) relatorio) in
  cob ← taxa_pct (size (pat_ativos ∩ pat_rel)) (size pat_ativos);
  mret {| ativos_sem_relatorio := size (pat_ativos ∖ pat_rel);
          total_ativos := size pat_ativos;
          cobertura_relatorio := cob;
          rel_sem_contrato_ativo := size (pat_rel ∖ pat_ativos) |}.

End Auditoria.

(** * Vocabulary of the statements and example workbooks *)

(** A comparison that decides equality and whose [Lt] is a strict order. *)
Definition good_cmp {A} (cmp : A -> A -> comparison) : Prop :=
  (forall x y, cmp x y = Eq <-> x = y)
  /\ (forall x y, cmp y x = CompOpp (cmp x y))
  /\ (forall x y z, cmp x y = Lt -> cmp y z = Lt -> cmp x z = Lt).

(** The comparison of [sort_values] on two columns, on the pair of keys. *)
Definition lex_compare {A B} (c1 : A -> A -> comparison) (c2 : B -> B -> comparison)
    (p q : A * B) : comparison :=
  match c1 p.1 q.1 with
  | Eq => c2 p.2 q.2
  | c => c
  end.

Definition leb_of {A} (cmp : A -> A -> comparison) (x y : A) : bool :=
  match cmp x y with Gt => false | _ => true end.

Definition os_key (r : OSRow) : option string * option Timestamp :=
  (id_patrimonio r, data_fechamento_OS r).

(** The greatest CICLO among the rows of a unit, 0 when it has none. *)
Definition max_ciclo (os : list OSCiclo) (u : string) : nat :=
  max_list (CICLO <$> grupo u os).

(** What the CICLO column must satisfy, given the log that was numbered:
    per unit the cycles are 1, 2, ..., one per row of the unit; the rows
    of the unit are those of the log, by ascending closing date with the
    undated rows last; rows of the unit with the same closing date, or
    all without one, keep the order of the log. *)
Definition ciclos_em_ordem (entrada : list OSRow) (saida : list OSCiclo) : Prop :=
  forall u : string,
    let retidos := filter (fun r => id_patrimonio r = Some u) entrada in
    let g := grupo u saida in
    CICLO <$> g = seq 1 (length retidos)
    /\ os_row <$> g ≡ₚ retidos
    /\ StronglySorted
         (fun a b => date_leb (data_fechamento_OS a) (data_fechamento_OS b) = true)
         (os_row <$> g)
    /\ forall d : option Timestamp,
         filter (fun r => data_fechamento_OS r = d) (os_row <$> g)
         = filter (fun r => data_fechamento_OS r = d) retidos.

(** The status of a unit read off the cycles of its rows: REUTILIZADO
    exactly when the greatest cycle exceeds 1, NOVO otherwise, and NOVO
    for a unit with no row. *)
Definition status_pelo_ciclo (ciclos : list OSCiclo) (u : string) (status : option string)
  : Prop :=
  (status = Some "REUTILIZADO" <-> (1 < max_ciclo ciclos u)%nat)
  /\ (status = Some "NOVO" <-> (max_ciclo ciclos u <= 1)%nat)
  /\ (grupo u ciclos = [] -> status = Some "NOVO").

(** A purchased unit, invoice 100 of 2024-01-10, model X. *)
Definition nota_exemplo (pat : string) : NotaRow :=
  {| Numero_NF := Some "100";
     Data_NF := Some 1704844800000000000%Z;
     Descricao := Some "X";
     N_Serie := None;
     MAC_nota := None;
     nota_id_patrimonio := Some pat |}.

(** A service order of a unit. *)
Definition os_exemplo (ordem pat : string) (fechamento : option Timestamp)
    (assunto status almox : option string) : OSRow :=
  {| ID_Ordem_de_Servico := Some ordem;
     data_fechamento_OS := fechamento;
     Descricao_Assunto := None;
     ID_cliente := None;
     Almoxarifado := almox;
     descricao_produto := None;
     id_patrimonio := Some pat;
     status_comodato := status;
     ASSUNTO_PADRONIZADO := assunto |}.

(** Unit A1 was purchased and has no service order; the only order of
    the log is of another unit. *)
Definition planilha_sem_os : Workbook :=
  {| NOTAS := [nota_exemplo "A1"];
     OS := [ os_exemplo "7" "B9" (Some 1717200000000000000%Z)
                        (Some "INSTALACAO") (Some "Emprestado") None ];
     RELATORIO := [];
     CONTRATOS := [];
     config := [] |}.

(** Unit A2 has an order closed on 2024-02-01 that names a warehouse
    and an order closed on 2024-06-01 whose warehouse cell is empty. *)
Definition planilha_almoxarifado_vazio : Workbook :=
  {| NOTAS := [nota_exemplo "A2"];
     OS := [ os_exemplo "1" "A2" (Some 1706745600000000000%Z)
                        (Some "INSTALACAO") (Some "Sem Uso") (Some "RMA");
             os_exemplo "2" "A2" (Some 1717200000000000000%Z)
                        (Some "MANUTENCAO") (Some "Emprestado") None ];
     RELATORIO := [];
     CONTRATOS := [];
     config := [] |}.

(** The row that [inferir_local] reads when only the two text cells
    are known. *)
Definition linha_de (status almox : option string) : RelatorioRow :=
  {| NF := None; DATA_NF := None; MAC := None; SERIE := None; PATRIMONIO := None;
     DESCRICAO := None; ASSUNTO_OS := None; DATA_ULTIMA_OS := None;
     STATUS_COMODATO := status; ALMOXARIFADO := almox;
     STATUS_EQUIPAMENTO := None; LOCAL_EQUIPAMENTO := None |}.

(** The location as the specification words it: the cascade applied to
    the cells of the unit's latest row alone, an empty cell read as the
    sheet's default. Missing when the unit has no row. *)
Definition local_pela_ultima_os `{Text} (sorted : list OSRow) (u : string) : option string :=
  (fun e => AtualizarMes.inferir_local
              (linha_de (fillna "Sem Uso" (status_comodato e)) (fillna "" (Almoxarifado e))))
    <$> last (filter (fun r => id_patrimonio r = Some u) sorted).

(** Two workbooks with the same source sheets; the RELATORIO sheets,
    left by earlier runs, may differ. *)
Definition mesmas_fontes (a b : Workbook) : Prop :=
  NOTAS a = NOTAS b /\ OS a = OS b /\ CONTRATOS a = CONTRATOS b /\ config a = config b.

(** The workbook of [planilha_almoxarifado_vazio] after some earlier run
    left a stale row in RELATORIO. *)
Definition planilha_com_relatorio_antigo : Workbook :=
  {| NOTAS := NOTAS planilha_almoxarifado_vazio;
     OS := OS planilha_almoxarifado_vazio;
     RELATORIO := [linha_de (Some "Sem Uso") (Some "ALMOX CENTRAL")];
     CONTRATOS := CONTRATOS planilha_almoxarifado_vazio;
     config := config planilha_almoxarifado_vazio |}.

(** The value of ASSUNTO PADRONIZADO before the canonical renaming: the
    column of the file when it has one, else the DE/PARA translation of
    the raw subject, "****" when config has no entry for it. *)
Definition assunto_intermediario (df : AtualizarMes.ArquivoOS) (cfg : list ConfigRow)
    (r : OSRow) : option string :=
  if AtualizarMes.tem_ASSUNTO_PADRONIZADO df then ASSUNTO_PADRONIZADO r
  else Some (default "****" (Descricao_Assunto r ≫= (assunto_map_of cfg !!.))).

(** A month's file with the raw subject column only, one order whose raw
    subject is a key of the canonical table. *)
Definition arquivo_descontinuado : AtualizarMes.ArquivoOS :=
  {| AtualizarMes.tem_ASSUNTO_PADRONIZADO := false;
     AtualizarMes.tem_Descricao_Assunto := true;
     AtualizarMes.linhas :=
       [ {| ID_Ordem_de_Servico := Some "1";
            data_fechamento_OS := None;
            Descricao_Assunto := Some "Instalação Internet (descontinuado)";
            ID_cliente := None;
            Almoxarifado := None;
            descricao_produto := None;
            id_patrimonio := Some "A1";
            status_comodato := None;
            ASSUNTO_PADRONIZADO := None |} ] |}.

(** A config sheet whose DE/PARA table translates that raw subject. *)
Definition config_descontinuado : list ConfigRow :=
  [ {| DE := Some "Instalação Internet (descontinuado)";
       PARA := Some "MANUTENCAO";
       MODELO := None;
       OBSOLETO_q := None |} ].

(** [drop_duplicates] with the identifiers already seen made explicit. *)
Definition drop_duplicates_from (seen : gset (option string)) (os : list OSRow) : list OSRow :=
  (filter (fun p => p.2 = false) (zip os (Dados.duplicated_from seen os))).*1.

(** What [load_data] does to a row it keeps: the unit identifier is
    cleaned and the subject renamed to the canonical vocabulary. *)
Definition limpar_linha (r : OSRow) : OSRow :=
  AtualizarMes.repadronizar
    (set_id_patrimonio (Some (Dados.normalizar_id (id_patrimonio r))) r).

(** The order OS-555 entered twice, both rows with a unit. *)
Definition planilha_os_555 : Workbook :=
  {| NOTAS := [];
     OS := [ os_exemplo "OS-555" "A1" (Some 1717200000000000000%Z)
                        (Some "MANUTENCAO") (Some "Emprestado") None;
             os_exemplo "OS-555" "A1" (Some 1706745600000000000%Z)
                        (Some "INSTALACAO") (Some "Sem Uso") None ];
     RELATORIO := [];
     CONTRATOS := [];
     config := [] |}.

(** The order OS-555 entered twice, the first row without a unit. *)
Definition planilha_os_555_sem_patrimonio : Workbook :=
  {| NOTAS := [];
     OS := [ set_id_patrimonio None
               (os_exemplo "OS-555" "" (Some 1706745600000000000%Z)
                           (Some "INSTALACAO") (Some "Sem Uso") None);
             os_exemplo "OS-555" "A1" (Some 1717200000000000000%Z)
                        (Some "MANUTENCAO") (Some "Emprestado") None ];
     RELATORIO := [];
     CONTRATOS := [];
     config := [] |}.

(** The log without the rows that have no closing date. *)
Definition com_data_fechamento (os_df : list OSCiclo) : list OSCiclo :=
  filter (fun r => is_Some (data_fechamento_OS (os_row r))) os_df.



(** A workbook whose config sheet is [config_descontinuado]. *)
Definition planilha_config_descontinuado : Workbook :=
  {| NOTAS := []; OS := []; RELATORIO := []; CONTRATOS := [];
     config := config_descontinuado |}.

(** * Properties *)

(** ** Orders and sorting *)

Lemma good_cmp_Z : good_cmp Z.compare.
Proof.
  repeat split.
  - apply Z.compare_eq.
  - intros ->. apply Z.compare_refl.
  - intros x y. apply Z.compare_antisym.
  - intros x y z. rewrite !Z.compare_lt_iff. lia.
Qed.

Lemma good_cmp_string : good_cmp String_as_OT.compare.
Proof.
  assert (Hirr : forall x, String_as_OT.compare x x <> Lt).
  { intros x Hx. exact (StrictOrder_Irreflexive (R := String_as_OT.lt) x Hx). }
  assert (Htr : forall x y z, String_as_OT.compare x y = Lt ->
                              String_as_OT.compare y z = Lt -> String_as_OT.compare x z = Lt).
  { intros x y z. exact (StrictOrder_Transitive (R := String_as_OT.lt) x y z). }
  repeat split.
  - intros Hc. destruct (String_as_OT.compare_spec x y) as [E|L|G]; congruence.
  - intros ->. destruct (String_as_OT.compare_spec y y) as [E|L|G]; [done| |];
      exfalso; eapply Hirr; eassumption.
  - intros x y.
    destruct (String_as_OT.compare_spec x y) as [E|L|G],
             (String_as_OT.compare_spec y x) as [E'|L'|G']; simpl; try done;
      unfold String_as_OT.lt, String_as_OT.eq in *; subst;
      exfalso; first [ eapply Hirr; eassumption | eapply Hirr; eapply Htr; eassumption ].
  - exact Htr.
Qed.

Lemma good_cmp_cell {A} (cmp : A -> A -> comparison) :
  good_cmp cmp -> good_cmp (cell_compare cmp).
Proof.
  intros (Heq & Hop & Htr). repeat split.
  - destruct x, y; simpl; try done. all: intros Hc; f_equal; by apply Heq.
  - intros ->. destruct y; simpl; [by apply Heq|done].
  - intros [x|] [y|]; simpl; first [done | apply Hop].
  - intros [x|] [y|] [z|]; simpl; first [done | apply Htr].
Qed.

Lemma good_cmp_lex {A B} (c1 : A -> A -> comparison) (c2 : B -> B -> comparison) :
  good_cmp c1 -> good_cmp c2 -> good_cmp (lex_compare c1 c2).
Proof.
  intros (Heq1 & Hop1 & Htr1) (Heq2 & Hop2 & Htr2). unfold lex_compare. repeat split.
  - destruct x as [a b], y as [a' b']; simpl. destruct (c1 a a') eqn:E1; try done.
    intros E2. apply Heq1 in E1. apply Heq2 in E2. by subst.
  - intros ->. destruct y as [a b]; simpl.
    rewrite (proj2 (Heq1 a a) eq_refl). by apply Heq2.
  - intros [a b] [a' b']; simpl. rewrite (Hop1 a a').
    destruct (c1 a a'); simpl; [apply Hop2|done|done].
  - intros [a b] [a' b'] [a'' b'']; simpl.
    destruct (c1 a a') eqn:E1; try done.
    + apply Heq1 in E1. subst a'. destruct (c1 a a'') eqn:E2; try done. apply Htr2.
    + intros _. destruct (c1 a' a'') eqn:E2; try done.
      * apply Heq1 in E2. subst a''. by rewrite E1.
      * intros _. by rewrite (Htr1 _ _ _ E1 E2).
Qed.

Lemma leb_of_total {A} (cmp : A -> A -> comparison) :
  good_cmp cmp -> forall x y, leb_of cmp x y = true \/ leb_of cmp y x = true.
Proof.
  intros (_ & Hop & _) x y. unfold leb_of. rewrite (Hop x y).
  destruct (cmp x y); simpl; auto.
Qed.

Lemma leb_of_trans {A} (cmp : A -> A -> comparison) :
  good_cmp cmp ->
  forall x y z, leb_of cmp x y = true -> leb_of cmp y z = true -> leb_of cmp x z = true.
Proof.
  intros (Heq & Hop & Htr) x y z. unfold leb_of.
  destruct (cmp x y) eqn:E1; try done; intros _.
  - apply Heq in E1. by subst.
  - destruct (cmp y z) eqn:E2; try done; intros _.
    + apply Heq in E2. subst. by rewrite E1.
    + by rewrite (Htr _ _ _ E1 E2).
Qed.

Section SortFacts.
Context {A : Type} (leb : A -> A -> bool).

Lemma insert_sorted_Permutation (x : A) (l : list A) :
  insert_sorted leb x l ≡ₚ x :: l.
Proof.
  induction l as [|y l IH]; simpl; [done|].
  destruct (leb x y); [done|]. rewrite IH. apply Permutation_swap.
Qed.

Lemma sort_values_Permutation (l : list A) : sort_values leb l ≡ₚ l.
Proof.
  induction l as [|x l IH]; simpl; [done|].
  rewrite insert_sorted_Permutation. by rewrite IH.
Qed.

Lemma sort_values_length (l : list A) : length (sort_values leb l) = length l.
Proof. by rewrite sort_values_Permutation. Qed.

(** Rows that the order cannot tell apart stay in frame order. *)
Lemma filter_insert_sorted (P : A -> Prop) `{!forall x, Decision (P x)} (x : A) (l : list A) :
  (forall a b, P a -> P b -> leb a b = true) ->
  filter P (insert_sorted leb x l) = filter P (x :: l).
Proof.
  intros HP. induction l as [|y l IH]; simpl; [done|].
  destruct (leb x y) eqn:E; [done|].
  rewrite filter_cons, IH, !filter_cons.
  destruct (decide (P y)) as [Hy|Hy]; [|done].
  destruct (decide (P x)) as [Hx|Hx]; [|done].
  rewrite (HP x y Hx Hy) in E. done.
Qed.

Lemma filter_sort_values (P : A -> Prop) `{!forall x, Decision (P x)} (l : list A) :
  (forall a b, P a -> P b -> leb a b = true) ->
  filter P (sort_values leb l) = filter P l.
Proof.
  intros HP. induction l as [|x l IH]; simpl; [done|].
  rewrite filter_insert_sorted by done. rewrite !filter_cons. by rewrite IH.
Qed.

Hypothesis leb_total : forall x y, leb x y = true \/ leb y x = true.
Hypothesis leb_trans : forall x y z, leb x y = true -> leb y z = true -> leb x z = true.

Lemma insert_sorted_StronglySorted (x : A) (l : list A) :
  StronglySorted (fun a b => leb a b = true) l ->
  StronglySorted (fun a b => leb a b = true) (insert_sorted leb x l).
Proof.
  induction 1 as [|y l Hs IH Hy]; simpl.
  - repeat constructor.
  - destruct (leb x y) eqn:E.
    + constructor; [by constructor|]. constructor; [done|].
      eapply Forall_impl; [exact Hy|]. intros z Hz. by eapply leb_trans.
    + constructor; [done|]. rewrite insert_sorted_Permutation. constructor; [|done].
      destruct (leb_total x y) as [H1|H1]; [congruence|done].
Qed.

Lemma sort_values_StronglySorted (l : list A) :
  StronglySorted (fun a b => leb a b = true) (sort_values leb l).
Proof.
  induction l as [|x l IH]; simpl; [constructor|].
  by apply insert_sorted_StronglySorted.
Qed.
End SortFacts.

Lemma StronglySorted_filter_impl {A} (R R' : A -> A -> Prop) (P : A -> Prop)
    `{!forall x, Decision (P x)} (l : list A) :
  (forall x y, P x -> P y -> R x y -> R' x y) ->
  StronglySorted R l -> StronglySorted R' (filter P l).
Proof.
  intros HR. induction 1 as [|x l Hs IH Hx]; [constructor|].
  rewrite filter_cons. destruct (decide (P x)) as [Px|Px]; [|done].
  constructor; [done|].
  apply Forall_forall. intros y Hy. apply list_elem_of_filter in Hy as [Py Hy].
  rewrite Forall_forall in Hx. auto.
Qed.

(** ** The CICLO column *)

Lemma good_cmp_os_key :
  good_cmp (lex_compare (cell_compare String_as_OT.compare) (cell_compare Z.compare)).
Proof.
  apply good_cmp_lex; apply good_cmp_cell; [apply good_cmp_string | apply good_cmp_Z].
Qed.

Lemma os_key_leb_lex (r1 r2 : OSRow) :
  os_key_leb r1 r2
  = leb_of (lex_compare (cell_compare String_as_OT.compare) (cell_compare Z.compare))
           (os_key r1) (os_key r2).
Proof.
  unfold os_key_leb, os_key_compare, leb_of, lex_compare, os_key. simpl.
  by destruct (cell_compare String_as_OT.compare (id_patrimonio r1) (id_patrimonio r2)).
Qed.

Lemma os_key_leb_total (x y : OSRow) : os_key_leb x y = true \/ os_key_leb y x = true.
Proof. rewrite !os_key_leb_lex. apply leb_of_total, good_cmp_os_key. Qed.

Lemma os_key_leb_trans (x y z : OSRow) :
  os_key_leb x y = true -> os_key_leb y z = true -> os_key_leb x z = true.
Proof. rewrite !os_key_leb_lex. apply leb_of_trans, good_cmp_os_key. Qed.

Lemma os_key_leb_same_key (a b : OSRow) : os_key a = os_key b -> os_key_leb a b = true.
Proof.
  intros E. rewrite os_key_leb_lex, E. unfold leb_of.
  destruct good_cmp_os_key as (Heq & _ & _).
  by rewrite (proj2 (Heq (os_key b) (os_key b)) eq_refl).
Qed.

Lemma os_key_leb_same_unit (a b : OSRow) :
  id_patrimonio a = id_patrimonio b ->
  os_key_leb a b = date_leb (data_fechamento_OS a) (data_fechamento_OS b).
Proof.
  intros E. unfold os_key_leb, os_key_compare, date_leb. rewrite E.
  destruct (good_cmp_cell _ good_cmp_string) as (Heq & _ & _).
  by rewrite (proj2 (Heq (id_patrimonio b) (id_patrimonio b)) eq_refl).
Qed.

Lemma cumcount_from_os_row (seen : gmap (option string) nat) (l : list OSRow) :
  os_row <$> cumcount_from seen l = l.
Proof.
  revert seen. induction l as [|r l IH]; intros seen; simpl; [done|]. by rewrite IH.
Qed.

Lemma filter_os_row (P : OSRow -> Prop) `{!forall r, Decision (P r)} (l : list OSCiclo) :
  os_row <$> filter (fun r => P (os_row r)) l = filter P (os_row <$> l).
Proof.
  induction l as [|r l IH]; [done|].
  rewrite fmap_cons, !filter_cons.
  destruct (decide (P (os_row r))); rewrite ?fmap_cons, IH; done.
Qed.

(** Within one unit the running count takes the values that follow the
    count already seen, one by one. *)
Lemma cumcount_from_grupo (k : option string) (seen : gmap (option string) nat)
    (l : list OSRow) :
  CICLO <$> filter (fun r => id_patrimonio (os_row r) = k) (cumcount_from seen l)
  = seq (S (default 0%nat (seen !! k))) (length (filter (fun r => id_patrimonio r = k) l)).
Proof.
  revert seen. induction l as [|r l IH]; intros seen; [done|].
  simpl cumcount_from. rewrite !filter_cons. simpl os_row.
  destruct (decide (id_patrimonio r = k)) as [E|E].
  - subst k. rewrite fmap_cons, IH, lookup_insert_eq. done.
  - rewrite IH, lookup_insert_ne by done. done.
Qed.

Lemma last_notna_total {A B} (f : A -> B) (l : list A) :
  last_notna (fun r => Some (f r)) l = last (f <$> l).
Proof.
  unfold last_notna. induction l as [|x l IH] using rev_ind; [done|].
  rewrite foldl_app, fmap_app. simpl. by rewrite last_snoc.
Qed.

Lemma last_seq (a n : nat) :
  last (seq a n) = match n with O => None | S m => Some (a + m)%nat end.
Proof.
  destruct n as [|m]; [done|].
  replace (S m) with (m + 1)%nat by lia. rewrite seq_app.
  change (seq (a + m) 1) with [(a + m)%nat]. by rewrite last_snoc.
Qed.

Lemma max_list_seq (a n : nat) :
  max_list (seq a n) = match n with O => 0%nat | S m => (a + m)%nat end.
Proof.
  revert a. induction n as [|m IH]; intros a; [done|].
  simpl. rewrite IH. destruct m; lia.
Qed.

Lemma grupo_calcular_ciclo (os : list OSRow) (u : string) :
  os_row <$> grupo u (calcular_ciclo os)
  = filter (fun r => id_patrimonio r = Some u) (sort_values os_key_leb os).
Proof.
  unfold grupo, calcular_ciclo.
  etrans; [exact (filter_os_row (fun r => id_patrimonio r = Some u) _)|].
  by rewrite cumcount_from_os_row.
Qed.

Lemma CICLO_grupo_calcular_ciclo (os : list OSRow) (u : string) :
  CICLO <$> grupo u (calcular_ciclo os)
  = seq 1 (length (filter (fun r => id_patrimonio r = Some u) os)).
Proof.
  unfold grupo, calcular_ciclo. rewrite cumcount_from_grupo, lookup_empty. simpl.
  by rewrite (sort_values_Permutation os_key_leb os).
Qed.

Lemma ultimo_ciclo_calcular_ciclo (os : list OSRow) (u : string) :
  ultimo_ciclo (calcular_ciclo os) u
  = match length (filter (fun r => id_patrimonio r = Some u) os) with
    | O => None
    | S m => Some (S m)
    end.
Proof.
  unfold ultimo_ciclo. rewrite last_notna_total, CICLO_grupo_calcular_ciclo, last_seq.
  done.
Qed.

Lemma status_equipamento_max_ciclo (os : list OSRow) (u : string) :
  status_equipamento (ultimo_ciclo (calcular_ciclo os) u)
  = if (1 <? max_ciclo (calcular_ciclo os) u)%nat then "REUTILIZADO" else "NOVO".
Proof.
  unfold max_ciclo. rewrite ultimo_ciclo_calcular_ciclo, CICLO_grupo_calcular_ciclo, max_list_seq.
  by destruct (length _).
Qed.

Lemma calcular_ciclo_em_ordem (os : list OSRow) : ciclos_em_ordem os (calcular_ciclo os).
Proof.
  intros u retidos g. subst retidos g. repeat split.
  - apply CICLO_grupo_calcular_ciclo.
  - rewrite grupo_calcular_ciclo. by rewrite (sort_values_Permutation os_key_leb os).
  - rewrite grupo_calcular_ciclo.
    eapply (StronglySorted_filter_impl (fun a b => os_key_leb a b = true));
      [|apply sort_values_StronglySorted; [apply os_key_leb_total|apply os_key_leb_trans]].
    intros x y Hx Hy Hxy. rewrite <- Hxy. symmetry. apply os_key_leb_same_unit. congruence.
  - intros d. rewrite grupo_calcular_ciclo, !list_filter_filter.
    apply filter_sort_values. intros a b [Ha1 Ha2] [Hb1 Hb2].
    apply os_key_leb_same_key. unfold os_key. congruence.
Qed.

(** C3. In the cleaned OS log of [load_data], and in the log that
    [recalcular_relatorio] numbers, the CICLO values of every unit are
    exactly 1..N for the N rows kept for that unit, given in ascending
    order of closing date with no gap and no repeat; a row without a
    closing date comes after every dated row of its unit, and rows that
    tie keep the order of the source. *)
Theorem ciclo_1_a_N_por_patrimonio (wb : Workbook) :
  ciclos_em_ordem (Dados.limpar_os (OS wb)).1 (Dados.os (Dados.load_data wb))
  /\ ciclos_em_ordem (AtualizarMes.limpar_patrimonios (OS wb))
                     (calcular_ciclo (AtualizarMes.limpar_patrimonios (OS wb))).
Proof.
  split; [|apply calcular_ciclo_em_ordem].
  unfold Dados.load_data. destruct (Dados.limpar_os (OS wb)) as [os_limpo lim].
  destruct (Dados.classificar (config wb)) as [obs cfg1]. simpl.
  apply calcular_ciclo_em_ordem.
Qed.

(** ** STATUS_EQUIPAMENTO *)

Lemma status_equipamento_pelo_ciclo (os : list OSRow) (u : string) :
  status_pelo_ciclo (calcular_ciclo os) u
    (Some (status_equipamento (ultimo_ciclo (calcular_ciclo os) u))).
Proof.
  rewrite status_equipamento_max_ciclo. unfold status_pelo_ciclo.
  assert (Hg : grupo u (calcular_ciclo os) = [] -> max_ciclo (calcular_ciclo os) u = 0%nat).
  { unfold max_ciclo. by intros ->. }
  destruct (1 <? max_ciclo (calcular_ciclo os) u)%nat eqn:E.
  - apply Nat.ltb_lt in E.
    repeat split; intros; first [done | lia | discriminate | exfalso; rewrite Hg in E by done; lia].
  - apply Nat.ltb_ge in E.
    repeat split; intros; first [done | lia | discriminate].
Qed.

(** C6. In the recomputed RELATORIO and in the RELATORIO that
    [load_data] returns, every row (one per invoiced unit) has
    STATUS_EQUIPAMENTO = REUTILIZADO if and only if the greatest CICLO
    of the unit's rows in the numbered OS log is above 1, and NOVO
    otherwise; a unit with no row in the log is NOVO. *)
Theorem status_equipamento_reutilizado_sse_ciclo_maior_que_1 `{Text} (wb : Workbook) :
  Forall2 (fun n r =>
             PATRIMONIO r = Some (AtualizarMes.PATRIMONIO_STR n)
             /\ status_pelo_ciclo (calcular_ciclo (AtualizarMes.limpar_patrimonios (OS wb)))
                                  (AtualizarMes.PATRIMONIO_STR n) (STATUS_EQUIPAMENTO r))
          (NOTAS wb) (RELATORIO (AtualizarMes.recalcular_relatorio wb))
  /\ Forall2 (fun r r' =>
                PATRIMONIO (Dados.rel_row r') = Some (Dados.normalizar_id (PATRIMONIO r))
                /\ status_pelo_ciclo (Dados.os (Dados.load_data wb))
                                     (Dados.normalizar_id (PATRIMONIO r))
                                     (STATUS_EQUIPAMENTO (Dados.rel_row r')))
             (RELATORIO wb) (Dados.relatorio (Dados.load_data wb)).
Proof.
  split.
  - unfold AtualizarMes.recalcular_relatorio. simpl.
    apply Forall2_fmap_r, Forall_Forall2_diag, Forall_forall. intros n _. simpl.
    split; [done|]. apply status_equipamento_pelo_ciclo.
  - unfold Dados.load_data. destruct (Dados.limpar_os (OS wb)) as [os_limpo lim].
    destruct (Dados.classificar (config wb)) as [obs cfg1]. simpl.
    apply Forall2_fmap_r, Forall_Forall2_diag, Forall_forall. intros r _. simpl.
    split; [done|]. apply status_equipamento_pelo_ciclo.
Qed.

(** ** LOCAL_EQUIPAMENTO *)

Lemma inferir_local_so_le_duas_colunas `{Text} (r : RelatorioRow) :
  AtualizarMes.inferir_local r
  = AtualizarMes.inferir_local (linha_de (STATUS_COMODATO r) (ALMOXARIFADO r)).
Proof. done. Qed.

(** The cascade in the order of the source: each rule decides only when
    every rule before it has failed. *)
Lemma inferir_local_cascata `{Text} (r : RelatorioRow) :
  let status := astype_str (STATUS_COMODATO r) in
  let almox := astype_str (ALMOXARIFADO r) in
  let rma := contains "RMA" (upper almox) in
  let emprestado := contains "Emprestado" status in
  let descontinuado :=
    contains "Descontinuado" almox || contains "DESCONTINUADO" (upper almox) in
  let estoque :=
    contains "ALMOX" (upper almox) || contains "PRINCIPAL" (upper almox)
    || contains "DISTRIBUIC" (upper almox) || contains "CONFERIDO" (upper almox) in
  (rma = true -> AtualizarMes.inferir_local r = "RMA")
  /\ (rma = false -> emprestado = true -> AtualizarMes.inferir_local r = "INSTALADO")
  /\ (rma = false -> emprestado = false -> descontinuado = true ->
      AtualizarMes.inferir_local r = "DESCONTINUADO")
  /\ (rma = false -> emprestado = false -> descontinuado = false -> estoque = true ->
      AtualizarMes.inferir_local r = "EM ESTOQUE")
  /\ (rma = false -> emprestado = false -> descontinuado = false -> estoque = false ->
      AtualizarMes.inferir_local r = "COM TÉCNICO").
Proof.
  intros status almox rma emprestado descontinuado estoque.
  unfold AtualizarMes.inferir_local. fold status almox. fold rma emprestado.
  assert (Hest : existsb (fun x => contains x (upper almox))
                         ["ALMOX"; "PRINCIPAL"; "DISTRIBUIC"; "CONFERIDO"] = estoque).
  { unfold estoque. simpl. by rewrite orb_false_r, !orb_assoc. }
  rewrite Hest. fold descontinuado.
  repeat split; intros; repeat match goal with Hb : _ = _ |- _ => rewrite Hb; clear Hb end;
    try done.
  by destruct (bool_decide _).
Qed.

Lemma filter_sem_linhas {A} (P : A -> Prop) `{!forall x, Decision (P x)} (l l' : list A) :
  l ≡ₚ l' -> filter P l' = [] -> filter P l = [].
Proof.
  intros Hp Hn. apply Permutation_nil_r. rewrite <- Hn. by rewrite Hp.
Qed.

(** C1, as the code has it. A purchased unit with no service order gets,
    in the recomputed RELATORIO, the subject SEM OS, no date, the
    comodato status Sem Uso, an empty warehouse, the status NOVO and
    the location COM TÉCNICO, the cascade's answer for an unused unit
    with no warehouse text; no location of its own marks the absence of
    orders. *)
Theorem sem_os_local_com_tecnico `{Text} (wb : Workbook) :
  upper "" = "" ->
  Forall2 (fun n r =>
             filter (fun e => id_patrimonio e = Some (AtualizarMes.PATRIMONIO_STR n))
                    (AtualizarMes.limpar_patrimonios (OS wb)) = [] ->
             PATRIMONIO r = Some (AtualizarMes.PATRIMONIO_STR n)
             /\ ASSUNTO_OS r = Some "SEM OS"
             /\ DATA_ULTIMA_OS r = None
             /\ STATUS_COMODATO r = Some "Sem Uso"
             /\ ALMOXARIFADO r = Some ""
             /\ STATUS_EQUIPAMENTO r = Some "NOVO"
             /\ LOCAL_EQUIPAMENTO r = Some "COM TÉCNICO")
          (NOTAS wb) (RELATORIO (AtualizarMes.recalcular_relatorio wb)).
Proof.
  intros Hup. unfold AtualizarMes.recalcular_relatorio. simpl.
  apply Forall2_fmap_r, Forall_Forall2_diag, Forall_forall. intros n _ Hsem.
  unfold AtualizarMes.linha_relatorio, AtualizarMes.ultima_os, AtualizarMes.os_sorted.
  cbv zeta.
  rewrite (filter_sem_linhas _ _ _ (sort_values_Permutation os_date_leb _) Hsem).
  rewrite ultimo_ciclo_calcular_ciclo, Hsem. simpl.
  repeat split. unfold AtualizarMes.inferir_local. simpl. rewrite Hup. done.
Qed.

Lemma sem_os_local_com_tecnico_witness :
  upper (Text := ascii_text) "" = ""
  /\ Forall2 (fun n r =>
                filter (fun e => id_patrimonio e = Some (AtualizarMes.PATRIMONIO_STR n))
                       (AtualizarMes.limpar_patrimonios (OS planilha_sem_os)) = [] ->
                PATRIMONIO r = Some (AtualizarMes.PATRIMONIO_STR n)
                /\ ASSUNTO_OS r = Some "SEM OS"
                /\ DATA_ULTIMA_OS r = None
                /\ STATUS_COMODATO r = Some "Sem Uso"
                /\ ALMOXARIFADO r = Some ""
                /\ STATUS_EQUIPAMENTO r = Some "NOVO"
                /\ LOCAL_EQUIPAMENTO r = Some "COM TÉCNICO")
             (NOTAS planilha_sem_os)
             (RELATORIO (AtualizarMes.recalcular_relatorio (H := ascii_text) planilha_sem_os)).
Proof.
  split; [reflexivity|].
  apply (sem_os_local_com_tecnico (H := ascii_text) planilha_sem_os). reflexivity.
Defined.

(** C1, as the specification states it, fails: unit A1 has no service order and
    the recomputed RELATORIO gives it the location COM TÉCNICO. *)
Lemma sem_os_recebe_com_tecnico :
  filter (fun e => id_patrimonio e = Some "A1")
         (AtualizarMes.limpar_patrimonios (OS planilha_sem_os)) = []
  /\ (fun r => (PATRIMONIO r, LOCAL_EQUIPAMENTO r))
       <$> RELATORIO (AtualizarMes.recalcular_relatorio (H := ascii_text) planilha_sem_os)
     = [(Some "A1", Some "COM TÉCNICO")].
Proof. split; reflexivity. Qed.

(** C5, on a unit whose latest order has an empty warehouse cell: the
    RELATORIO takes the warehouse of the order before it and answers
    RMA, where the cascade on the latest order alone answers INSTALADO. *)
Theorem local_usa_celula_de_os_anterior :
  (fun r => (PATRIMONIO r, STATUS_COMODATO r, ALMOXARIFADO r, LOCAL_EQUIPAMENTO r))
    <$> RELATORIO (AtualizarMes.recalcular_relatorio (H := ascii_text)
                     planilha_almoxarifado_vazio)
  = [(Some "A2", Some "Emprestado", Some "RMA", Some "RMA")]
  /\ (fun e => (ID_Ordem_de_Servico e, Almoxarifado e))
       <$> last (AtualizarMes.os_sorted
                   (AtualizarMes.limpar_patrimonios (OS planilha_almoxarifado_vazio)))
     = Some (Some "2", None)
  /\ local_pela_ultima_os (H := ascii_text)
       (AtualizarMes.os_sorted (AtualizarMes.limpar_patrimonios (OS planilha_almoxarifado_vazio)))
       "A2"
     = Some "INSTALADO".
Proof. repeat split; reflexivity. Qed.

Lemma last_notna_last {A B} (col : A -> option B) (g : list A) (e : A) :
  last g = Some e -> is_Some (col e) -> last_notna col g = col e.
Proof.
  destruct g as [|x g _] using rev_ind; [done|].
  rewrite last_snoc. intros [= ->] [v Hv].
  unfold last_notna. rewrite foldl_app. simpl. by rewrite Hv.
Qed.

(** When the latest order of a unit has both text cells filled, the
    location in RELATORIO is the cascade on that order alone; the two
    part only on an empty cell. *)
Lemma local_pela_ultima_os_com_celulas `{Text} (sorted : list OSRow) (ciclos : list OSCiclo)
    (n : NotaRow) (e : OSRow) :
  last (filter (fun r => id_patrimonio r = Some (AtualizarMes.PATRIMONIO_STR n)) sorted)
  = Some e ->
  is_Some (status_comodato e) -> is_Some (Almoxarifado e) ->
  LOCAL_EQUIPAMENTO (AtualizarMes.linha_relatorio sorted ciclos n)
  = local_pela_ultima_os sorted (AtualizarMes.PATRIMONIO_STR n).
Proof.
  intros Hlast Hs Ha. unfold local_pela_ultima_os. rewrite Hlast. simpl.
  unfold AtualizarMes.linha_relatorio, AtualizarMes.ultima_os. simpl.
  rewrite (last_notna_last status_comodato _ e Hlast Hs).
  rewrite (last_notna_last Almoxarifado _ e Hlast Ha). done.
Qed.

(** ** The scope of the RELATORIO sheet *)

(** C7. The recomputed RELATORIO has one row per row of NOTAS, in the
    same order, carrying that row's unit identifier; so every unit in
    it is a unit of NOTAS, and a unit known only to the OS log has no
    row. After [load_data] the table still has one row per NOTAS row,
    and a unit of the cleaned OS log that no row of the table carries
    is in the audit finding [pat_os_sem_relatorio]. *)
Theorem relatorio_tem_so_patrimonios_de_notas `{Text} (wb : Workbook) :
  PATRIMONIO <$> RELATORIO (AtualizarMes.recalcular_relatorio wb)
  = (fun n => Some (AtualizarMes.PATRIMONIO_STR n)) <$> NOTAS wb
  /\ (forall u : string,
        Some u ∈ PATRIMONIO <$> RELATORIO (AtualizarMes.recalcular_relatorio wb) ->
        exists n, n ∈ NOTAS wb /\ AtualizarMes.PATRIMONIO_STR n = u)
  /\ (forall u : string,
        (exists e, e ∈ AtualizarMes.limpar_patrimonios (OS wb) /\ id_patrimonio e = Some u) ->
        (forall n, n ∈ NOTAS wb -> AtualizarMes.PATRIMONIO_STR n <> u) ->
        Some u ∉ PATRIMONIO <$> RELATORIO (AtualizarMes.recalcular_relatorio wb))
  /\ (let d := Dados.load_data (AtualizarMes.recalcular_relatorio wb) in
      length (Dados.relatorio d) = length (NOTAS wb)
      /\ forall u : string,
           (exists e, e ∈ Dados.os d /\ id_patrimonio (os_row e) = Some u) ->
           (forall r, r ∈ Dados.relatorio d -> PATRIMONIO (Dados.rel_row r) <> Some u) ->
           u ∈ Auditoria.pat_os_sem_relatorio
                 (Auditoria.calcular_integridade (Dados.os d) (Dados.relatorio d)
                    (Dados.contratos d) (Dados.limpeza d))).
Proof.
  assert (Hpat : PATRIMONIO <$> RELATORIO (AtualizarMes.recalcular_relatorio wb)
                 = (fun n => Some (AtualizarMes.PATRIMONIO_STR n)) <$> NOTAS wb).
  { unfold AtualizarMes.recalcular_relatorio. simpl. rewrite <- list_fmap_compose.
    by apply list_fmap_ext. }
  assert (Hin : forall u : string,
             Some u ∈ PATRIMONIO <$> RELATORIO (AtualizarMes.recalcular_relatorio wb) ->
             exists n, n ∈ NOTAS wb /\ AtualizarMes.PATRIMONIO_STR n = u).
  { intros u. rewrite Hpat. intros (n & Hn & Hin)%list_elem_of_fmap.
    exists n. split; [done|]. congruence. }
  split; [done|]. split; [done|]. split.
  { intros u _ Hnot Hu. destruct (Hin u Hu) as (n & Hn & Hnu). by eapply Hnot. }
  cbv zeta. unfold Dados.load_data.
  destruct (Dados.limpar_os _) as [os_limpo lim].
  destruct (Dados.classificar _) as [obs cfg1]. simpl.
  split; [by rewrite !length_fmap|].
  intros u (e & He & Heu) Hnot. apply elem_of_difference. split.
  - apply elem_of_list_to_set, list_elem_of_omap. by exists e.
  - rewrite elem_of_list_to_set, list_elem_of_omap. intros (r & Hr & Hru).
    by apply (Hnot r Hr).
Qed.

(** ** Recomputation from the sources *)

(** C4. The processing is a function of the source sheets alone: two
    workbooks with the same NOTAS, OS, CONTRATOS and config, whatever
    an earlier run left in RELATORIO, are recomputed to the same
    workbook, and [load_data] then returns the same cleaned OS log,
    the same state table, the same classification and the same
    cleaning counts; recomputing a recomputed workbook changes nothing. *)
Theorem recalculo_depende_so_das_fontes `{Text} (a b : Workbook) :
  mesmas_fontes a b ->
  AtualizarMes.recalcular_relatorio a = AtualizarMes.recalcular_relatorio b
  /\ Dados.load_data (AtualizarMes.recalcular_relatorio a)
     = Dados.load_data (AtualizarMes.recalcular_relatorio b)
  /\ AtualizarMes.recalcular_relatorio (AtualizarMes.recalcular_relatorio a)
     = AtualizarMes.recalcular_relatorio a
  /\ Dados.os (Dados.load_data (AtualizarMes.recalcular_relatorio a)) = Dados.os (Dados.load_data a)
  /\ Dados.limpeza (Dados.load_data (AtualizarMes.recalcular_relatorio a))
     = Dados.limpeza (Dados.load_data a).
Proof.
  destruct a as [na oa ra ca cfa], b as [nb ob rb cb cfb].
  unfold mesmas_fontes. simpl. intros (-> & -> & -> & ->).
  assert (E : AtualizarMes.recalcular_relatorio
                {| NOTAS := nb; OS := ob; RELATORIO := ra; CONTRATOS := cb; config := cfb |}
              = AtualizarMes.recalcular_relatorio
                {| NOTAS := nb; OS := ob; RELATORIO := rb; CONTRATOS := cb; config := cfb |})
    by done.
  split; [done|]. split; [by rewrite E|]. split; [done|].
  unfold Dados.load_data, AtualizarMes.recalcular_relatorio. simpl.
  destruct (Dados.limpar_os ob) as [os_limpo lim].
  destruct (Dados.classificar cfb) as [obs cfg1]. done.
Qed.

Lemma recalculo_depende_so_das_fontes_witness :
  mesmas_fontes planilha_almoxarifado_vazio planilha_com_relatorio_antigo
  /\ RELATORIO planilha_almoxarifado_vazio <> RELATORIO planilha_com_relatorio_antigo
  /\ AtualizarMes.recalcular_relatorio (H := ascii_text) planilha_almoxarifado_vazio
     = AtualizarMes.recalcular_relatorio (H := ascii_text) planilha_com_relatorio_antigo.
Proof.
  assert (Hf : mesmas_fontes planilha_almoxarifado_vazio planilha_com_relatorio_antigo)
    by (repeat split; reflexivity).
  split; [exact Hf|]. split; [discriminate|].
  exact (proj1 (recalculo_depende_so_das_fontes (H := ascii_text) _ _ Hf)).
Defined.

(** ** The subject vocabulary *)

(** No canonical name is itself renamed: the table is applied once and
    its result is final. *)
Lemma PADRONIZACAO_ASSUNTO_final :
  map_Forall (fun _ v => PADRONIZACAO_ASSUNTO !! v = None) PADRONIZACAO_ASSUNTO.
Proof. apply (bool_decide_unpack _). by vm_compute. Qed.

Lemma replace_PADRONIZACAO_ASSUNTO_final (c : option string) (s : string) :
  replace PADRONIZACAO_ASSUNTO c = Some s -> PADRONIZACAO_ASSUNTO !! s = None.
Proof.
  destruct c as [x|]; [|done]. simpl. intros [= <-].
  destruct (PADRONIZACAO_ASSUNTO !! x) as [v|] eqn:E; simpl; [|done].
  exact (PADRONIZACAO_ASSUNTO_final x v E).
Qed.

(** C2, as the code has it. The canonical table is applied to the
    intermediate value (the file's ASSUNTO PADRONIZADO, or the DE/PARA
    translation of the raw subject, "****" without one), never to the raw
    subject: whenever the intermediate value is a key of the canonical
    table the result is that key's canonical name, whatever config
    holds, so the intermediate value "Instalação Internet
    (descontinuado)" always becomes INSTALACAO; the result is never a
    key of the canonical table; and a raw subject with no DE/PARA entry
    gives "****". *)
Theorem padronizacao_canonica_sobre_o_intermediario
    (df : AtualizarMes.ArquivoOS) (cfg : list ConfigRow) (saida : list OSRow) :
  AtualizarMes.padronizar_colunas df cfg = Some saida ->
  Forall2 (fun r r' =>
             ASSUNTO_PADRONIZADO r'
             = replace PADRONIZACAO_ASSUNTO (assunto_intermediario df cfg r)
             /\ (forall k v, PADRONIZACAO_ASSUNTO !! k = Some v ->
                             assunto_intermediario df cfg r = Some k ->
                             ASSUNTO_PADRONIZADO r' = Some v)
             /\ (assunto_intermediario df cfg r = Some "Instalação Internet (descontinuado)" ->
                 ASSUNTO_PADRONIZADO r' = Some "INSTALACAO")
             /\ (forall s, ASSUNTO_PADRONIZADO r' = Some s -> PADRONIZACAO_ASSUNTO !! s = None)
             /\ (AtualizarMes.tem_ASSUNTO_PADRONIZADO df = false ->
                 Descricao_Assunto r ≫= (assunto_map_of cfg !!.) = None ->
                 ASSUNTO_PADRONIZADO r' = Some "****"))
          (AtualizarMes.linhas df) saida.
Proof.
  unfold AtualizarMes.padronizar_colunas. intros Hs.
  assert (Hr : saida = (fun r => set_ASSUNTO_PADRONIZADO
                                   (replace PADRONIZACAO_ASSUNTO (assunto_intermediario df cfg r)) r)
                       <$> AtualizarMes.linhas df).
  { unfold assunto_intermediario.
    destruct (AtualizarMes.tem_ASSUNTO_PADRONIZADO df); simpl in Hs.
    - by injection Hs as <-.
    - destruct (AtualizarMes.tem_Descricao_Assunto df); simpl in Hs; [|done].
      injection Hs as <-. rewrite <- list_fmap_compose. by apply list_fmap_ext. }
  subst saida. apply Forall2_fmap_r, Forall_Forall2_diag, Forall_forall. intros r _. simpl.
  assert (Hk : forall k v, PADRONIZACAO_ASSUNTO !! k = Some v ->
                           assunto_intermediario df cfg r = Some k ->
                           replace PADRONIZACAO_ASSUNTO (assunto_intermediario df cfg r) = Some v).
  { intros k v Hkv ->. simpl. by rewrite Hkv. }
  split; [done|]. split; [done|]. split; [by apply Hk|].
  split; [apply replace_PADRONIZACAO_ASSUNTO_final|].
  intros Hsem Hnone. unfold assunto_intermediario. rewrite Hsem, Hnone. done.
Qed.

Lemma padronizacao_canonica_sobre_o_intermediario_witness :
  AtualizarMes.padronizar_colunas arquivo_descontinuado config_descontinuado
  = Some (AtualizarMes.repadronizar
            <$> (AtualizarMes.gerar_assunto (assunto_map_of config_descontinuado)
                   <$> AtualizarMes.linhas arquivo_descontinuado))
  /\ Forall2 (fun r r' =>
                ASSUNTO_PADRONIZADO r'
                = replace PADRONIZACAO_ASSUNTO
                    (assunto_intermediario arquivo_descontinuado config_descontinuado r)
                /\ (forall k v, PADRONIZACAO_ASSUNTO !! k = Some v ->
                                assunto_intermediario arquivo_descontinuado
                                  config_descontinuado r = Some k ->
                                ASSUNTO_PADRONIZADO r' = Some v)
                /\ (assunto_intermediario arquivo_descontinuado config_descontinuado r
                    = Some "Instalação Internet (descontinuado)" ->
                    ASSUNTO_PADRONIZADO r' = Some "INSTALACAO")
                /\ (forall s, ASSUNTO_PADRONIZADO r' = Some s ->
                              PADRONIZACAO_ASSUNTO !! s = None)
                /\ (AtualizarMes.tem_ASSUNTO_PADRONIZADO arquivo_descontinuado = false ->
                    Descricao_Assunto r ≫= (assunto_map_of config_descontinuado !!.) = None ->
                    ASSUNTO_PADRONIZADO r' = Some "****"))
             (AtualizarMes.linhas arquivo_descontinuado)
             (AtualizarMes.repadronizar
                <$> (AtualizarMes.gerar_assunto (assunto_map_of config_descontinuado)
                       <$> AtualizarMes.linhas arquivo_descontinuado)).
Proof.
  split; [reflexivity|].
  apply (padronizacao_canonica_sobre_o_intermediario
           arquivo_descontinuado config_descontinuado).
  reflexivity.
Defined.

(** C2, as the specification states it, fails: the raw subject "Instalação
    Internet (descontinuado)" has an entry in the canonical table (to
    INSTALACAO) and one in config (to MANUTENCAO), and the file comes
    out with MANUTENCAO. *)
Lemma padronizacao_segue_o_config :
  PADRONIZACAO_ASSUNTO !! "Instalação Internet (descontinuado)" = Some "INSTALACAO"
  /\ assunto_map_of config_descontinuado !! "Instalação Internet (descontinuado)"
     = Some "MANUTENCAO"
  /\ fmap (M := list) (fun r => (Descricao_Assunto r, ASSUNTO_PADRONIZADO r))
       <$> AtualizarMes.padronizar_colunas arquivo_descontinuado config_descontinuado
     = Some [(Some "Instalação Internet (descontinuado)", Some "MANUTENCAO")].
Proof. repeat split; reflexivity. Qed.

(** ** Duplicated service orders *)

Lemma drop_duplicates_from_cons (seen : gset (option string)) (r : OSRow) (l : list OSRow) :
  drop_duplicates_from seen (r :: l)
  = if bool_decide (ID_Ordem_de_Servico r ∈ seen) then drop_duplicates_from seen l
    else r :: drop_duplicates_from ({[ID_Ordem_de_Servico r]} ∪ seen) l.
Proof.
  unfold drop_duplicates_from. simpl. rewrite filter_cons. simpl.
  destruct (bool_decide (ID_Ordem_de_Servico r ∈ seen)) eqn:E.
  - apply bool_decide_eq_true in E.
    assert ({[ID_Ordem_de_Servico r]} ∪ seen = seen) as -> by set_solver.
    rewrite decide_False by done. done.
  - rewrite decide_True by done. done.
Qed.

Lemma duplicated_from_count (seen : gset (option string)) (l : list OSRow) :
  (length (filter (fun b => b = true) (Dados.duplicated_from seen l))
   + length (drop_duplicates_from seen l) = length l)%nat.
Proof.
  revert seen. induction l as [|r l IH]; intros seen; [done|].
  rewrite drop_duplicates_from_cons. simpl Dados.duplicated_from. rewrite filter_cons.
  destruct (bool_decide (ID_Ordem_de_Servico r ∈ seen)) eqn:E.
  - apply bool_decide_eq_true in E.
    assert ({[ID_Ordem_de_Servico r]} ∪ seen = seen) as -> by set_solver.
    rewrite decide_True by done. simpl. by rewrite IH.
  - rewrite decide_False by done. simpl. rewrite <- (IH ({[ID_Ordem_de_Servico r]} ∪ seen)). lia.
Qed.

Lemma elem_of_drop_duplicates_from (seen : gset (option string)) (l : list OSRow) (r : OSRow) :
  r ∈ drop_duplicates_from seen l
  <-> (exists i, l !! i = Some r
                 /\ (ID_Ordem_de_Servico r ∉ seen)
                 /\ forall j r1, (j < i)%nat -> l !! j = Some r1 ->
                                 ID_Ordem_de_Servico r1 <> ID_Ordem_de_Servico r).
Proof.
  revert seen. induction l as [|x l IH]; intros seen.
  - split; [by intros ?%elem_of_nil|]. by intros (i & Hi & _).
  - rewrite drop_duplicates_from_cons. case_bool_decide as Hx.
    + rewrite IH. split.
      * intros (i & Hi & Hs & Hf). exists (S i). repeat split; [done..|].
        intros [|j] r1 Hj Hr1; simpl in Hr1.
        -- injection Hr1 as <-. congruence.
        -- apply (Hf j); [lia|done].
      * intros ([|i] & Hi & Hs & Hf); simpl in Hi.
        -- injection Hi as <-. done.
        -- exists i. repeat split; [done..|].
           intros j r1 Hj Hr1. apply (Hf (S j)); [lia|done].
    + rewrite elem_of_cons, IH. split.
      * intros [->|(i & Hi & Hs & Hf)].
        -- exists 0%nat. repeat split; [done..|]. intros j r1 Hj. lia.
        -- exists (S i). repeat split; [done|set_solver|].
           intros [|j] r1 Hj Hr1; simpl in Hr1.
           ++ injection Hr1 as <-. set_solver.
           ++ apply (Hf j); [lia|done].
      * intros ([|i] & Hi & Hs & Hf); simpl in Hi.
        -- injection Hi as <-. by left.
        -- right. exists i. repeat split; [done| |].
           ++ assert (ID_Ordem_de_Servico x <> ID_Ordem_de_Servico r)
                by (apply (Hf 0%nat); [lia|done]).
              set_solver.
           ++ intros j r1 Hj Hr1. apply (Hf (S j)); [lia|done].
Qed.

Lemma NoDup_drop_duplicates_from (seen : gset (option string)) (l : list OSRow) :
  NoDup (ID_Ordem_de_Servico <$> drop_duplicates_from seen l).
Proof.
  revert seen. induction l as [|x l IH]; intros seen; [constructor|].
  rewrite drop_duplicates_from_cons. case_bool_decide as Hx; [done|].
  rewrite fmap_cons. constructor; [|done].
  intros (r & Hr & Hin)%list_elem_of_fmap.
  apply elem_of_drop_duplicates_from in Hin as (i & _ & Hs & _). set_solver.
Qed.

(** Cleaning a row keeps its order identifier, so it commutes with the
    removal of duplicates. *)
Lemma drop_duplicates_from_fmap (f : OSRow -> OSRow) (seen : gset (option string))
    (l : list OSRow) :
  (forall r, ID_Ordem_de_Servico (f r) = ID_Ordem_de_Servico r) ->
  Dados.duplicated_from seen (f <$> l) = Dados.duplicated_from seen l
  /\ drop_duplicates_from seen (f <$> l) = f <$> drop_duplicates_from seen l.
Proof.
  intros Hf. revert seen. induction l as [|x l IH]; intros seen; [done|].
  rewrite fmap_cons, !drop_duplicates_from_cons. simpl. rewrite Hf.
  destruct (IH seen) as [IH1 IH2].
  destruct (IH ({[ID_Ordem_de_Servico x]} ∪ seen)) as [IH3 IH4].
  split; [by rewrite IH3|].
  case_bool_decide; [done|]. by rewrite IH4, fmap_cons.
Qed.

Lemma limpar_os_fst (os0 : list OSRow) :
  (Dados.limpar_os os0).1
  = limpar_linha <$> drop_duplicates_from ∅ (dropna_id_patrimonio os0).
Proof.
  pose (f := fun r => set_id_patrimonio (Some (Dados.normalizar_id (id_patrimonio r))) r).
  transitivity (AtualizarMes.repadronizar
                  <$> drop_duplicates_from ∅ (f <$> dropna_id_patrimonio os0)); [done|].
  rewrite (proj2 (drop_duplicates_from_fmap f ∅ (dropna_id_patrimonio os0)
                    (fun r => eq_refl))).
  by rewrite <- list_fmap_compose.
Qed.

Lemma limpar_os_duplicadas (os0 : list OSRow) :
  (Dados.os_duplicadas (Dados.limpar_os os0).2 + length (Dados.limpar_os os0).1
   = length (dropna_id_patrimonio os0))%nat.
Proof.
  pose (f := fun r => set_id_patrimonio (Some (Dados.normalizar_id (id_patrimonio r))) r).
  rewrite limpar_os_fst, length_fmap.
  change (Dados.os_duplicadas (Dados.limpar_os os0).2)
    with (length (filter (fun b => b = true)
                         (Dados.duplicated_from ∅ (f <$> dropna_id_patrimonio os0)))).
  rewrite (proj1 (drop_duplicates_from_fmap f ∅ (dropna_id_patrimonio os0)
                    (fun r => eq_refl))).
  apply duplicated_from_count.
Qed.

Lemma load_data_os (wb : Workbook) :
  Dados.os (Dados.load_data wb) = calcular_ciclo (Dados.limpar_os (OS wb)).1
  /\ Dados.limpeza (Dados.load_data wb) = (Dados.limpar_os (OS wb)).2.
Proof.
  unfold Dados.load_data. destruct (Dados.limpar_os (OS wb)) as [os_limpo lim].
  by destruct (Dados.classificar (config wb)) as [obs cfg1].
Qed.

Lemma os_row_calcular_ciclo (os : list OSRow) : os_row <$> calcular_ciclo os ≡ₚ os.
Proof.
  unfold calcular_ciclo. rewrite cumcount_from_os_row. apply sort_values_Permutation.
Qed.

(** C8, as the code has it. Among the rows of OS that carry a unit
    (the others are removed, and counted apart, before duplicates are
    looked for), [load_data] keeps of each order identifier the first
    row in source order and no other; the count [os_duplicadas], shown
    by the audit page as the duplicates removed, is the number of rows
    this drops. Two rows with the identifier OS-555 that both carry a
    unit leave the first one and a count of 1. *)
Theorem duplicadas_entre_as_os_com_patrimonio (wb : Workbook) :
  let com_pat := dropna_id_patrimonio (OS wb) in
  let d := Dados.load_data wb in
  (Dados.os_duplicadas (Dados.limpeza d) + length (Dados.os d) = length com_pat)%nat
  /\ Auditoria.duplicados_removidos
       (Auditoria.calcular_qualidade_ingestao (Dados.os d) (Dados.limpeza d))
     = Dados.os_duplicadas (Dados.limpeza d)
  /\ NoDup (ID_Ordem_de_Servico <$> (os_row <$> Dados.os d))
  /\ (forall r : OSRow,
        r ∈ os_row <$> Dados.os d
        <-> (exists i r0,
               com_pat !! i = Some r0
               /\ r = limpar_linha r0
               /\ forall j r1, (j < i)%nat -> com_pat !! j = Some r1 ->
                               ID_Ordem_de_Servico r1 <> ID_Ordem_de_Servico r0))
  /\ (forall r1 r2 : OSRow,
        OS wb = [r1; r2] ->
        is_Some (id_patrimonio r1) -> is_Some (id_patrimonio r2) ->
        ID_Ordem_de_Servico r1 = Some "OS-555" ->
        ID_Ordem_de_Servico r2 = Some "OS-555" ->
        os_row <$> Dados.os d = [limpar_linha r1]
        /\ Dados.os_duplicadas (Dados.limpeza d) = 1%nat).
Proof.
  intros com_pat d. subst com_pat d. destruct (load_data_os wb) as [-> ->].
  assert (Hperm : os_row <$> calcular_ciclo (Dados.limpar_os (OS wb)).1
                  ≡ₚ limpar_linha <$> drop_duplicates_from ∅ (dropna_id_patrimonio (OS wb))).
  { rewrite os_row_calcular_ciclo. by rewrite limpar_os_fst. }
  assert (Hcount : (Dados.os_duplicadas (Dados.limpar_os (OS wb)).2
                    + length (calcular_ciclo (Dados.limpar_os (OS wb)).1)
                    = length (dropna_id_patrimonio (OS wb)))%nat).
  { rewrite <- (limpar_os_duplicadas (OS wb)). f_equal.
    rewrite <- (length_fmap os_row). by rewrite os_row_calcular_ciclo. }
  split; [done|]. split; [done|]. split.
  { rewrite Hperm.
    assert (ID_Ordem_de_Servico
              <$> (limpar_linha <$> drop_duplicates_from ∅ (dropna_id_patrimonio (OS wb)))
            = ID_Ordem_de_Servico <$> drop_duplicates_from ∅ (dropna_id_patrimonio (OS wb)))
      as -> by (rewrite <- list_fmap_compose; by apply list_fmap_ext).
    apply NoDup_drop_duplicates_from. }
  split.
  { intros r. rewrite Hperm, list_elem_of_fmap. split.
    - intros (r0 & -> & Hin). apply elem_of_drop_duplicates_from in Hin as (i & Hi & _ & Hf).
      by exists i, r0.
    - intros (i & r0 & Hi & -> & Hf). exists r0. split; [done|].
      apply elem_of_drop_duplicates_from. exists i. repeat split; [done|set_solver|done]. }
  intros r1 r2 Hos [u1 Hu1] [u2 Hu2] H1 H2.
  assert (Hcom : (dropna_id_patrimonio (OS wb)) = [r1; r2]).
  { rewrite Hos. unfold dropna_id_patrimonio.
    rewrite !filter_cons, filter_nil, !decide_True; by eauto. }
  assert (Hdrop : drop_duplicates_from ∅ (dropna_id_patrimonio (OS wb)) = [r1]).
  { rewrite Hcom, !drop_duplicates_from_cons, H1, H2.
    rewrite bool_decide_eq_false_2 by set_solver.
    rewrite bool_decide_eq_true_2 by set_solver. done. }
  rewrite Hdrop in Hperm. change (limpar_linha <$> [r1]) with [limpar_linha r1] in Hperm.
  apply Permutation_singleton_r in Hperm.
  split; [done|]. rewrite <- (length_fmap os_row), Hperm, Hcom in Hcount.
  change (length [limpar_linha r1]) with 1%nat in Hcount.
  change (length [r1; r2]) with 2%nat in Hcount. lia.
Qed.

(** C8, as the specification states it, fails: of the two rows with identifier
    OS-555 the first has no unit, so it is removed before duplicates
    are looked for; the second row is the one kept and the count of
    duplicates removed is 0. *)
Lemma os_555_sem_patrimonio_fica_a_segunda :
  ID_Ordem_de_Servico <$> OS planilha_os_555_sem_patrimonio
  = [Some "OS-555"; Some "OS-555"]
  /\ (fun r => (ID_Ordem_de_Servico (os_row r), id_patrimonio (os_row r),
                ASSUNTO_PADRONIZADO (os_row r)))
       <$> Dados.os (Dados.load_data planilha_os_555_sem_patrimonio)
     = [(Some "OS-555", Some "A1", Some "MANUTENCAO")]
  /\ Dados.limpeza (Dados.load_data planilha_os_555_sem_patrimonio)
     = {| Dados.os_total_bruto := 2; Dados.os_sem_patrimonio := 1; Dados.os_duplicadas := 0 |}.
Proof. repeat split; reflexivity. Qed.

(** The same two rows when both carry a unit: the first is kept and one
    duplicate is counted. *)
Example os_555_fica_a_primeira :
  (fun r => (ID_Ordem_de_Servico (os_row r), ASSUNTO_PADRONIZADO (os_row r), CICLO r))
    <$> Dados.os (Dados.load_data planilha_os_555)
  = [(Some "OS-555", Some "MANUTENCAO", 1%nat)]
  /\ Dados.os_duplicadas (Dados.limpeza (Dados.load_data planilha_os_555)) = 1%nat.
Proof. split; reflexivity. Qed.

(** ** Rates *)

(** The guarded quotient never raises, and is 0 on a zero denominator. *)
Lemma taxa_Ok (num den : nat) :
  exists q, taxa num den = Ok q /\ (den = 0%nat -> q = 0%Q).
Proof.
  unfold taxa, truediv. destruct den as [|d]; simpl; [by eexists|].
  eexists. split; [done|]. intros [=].
Qed.

Lemma taxa_pct_Ok (num den : nat) :
  exists q, taxa_pct num den = Ok q /\ (den = 0%nat -> q = 0%Q).
Proof.
  unfold taxa_pct, truediv. destruct den as [|d]; simpl; [by eexists|].
  eexists. split; [done|]. intros [=].
Qed.

Lemma mapM_Ok {A B} (f : A -> result B) (P : B -> Prop) (l : list A) :
  (forall x, exists y, f x = Ok y /\ P y) ->
  exists ys, mapM f l = Ok ys /\ Forall P ys.
Proof.
  intros Hf. induction l as [|x l (ys & Hys & HP)]; simpl.
  - by exists [].
  - destruct (Hf x) as (y & Hy & Py). exists (y :: ys).
    rewrite Hy. simpl. rewrite Hys. simpl. split; [done|]. by constructor.
Qed.

Lemma resumo_combinacao_Ok (relatorio : list Dados.RelatorioCarregado)
    (comb : option string * option string) :
  exists row, VisaoGeral.resumo_combinacao relatorio comb = Ok row
              /\ (VisaoGeral.COMPRADOS row = 0%nat ->
                  VisaoGeral.TAXA_ATIVACAO row = 0%Q
                  /\ VisaoGeral.PERC_ESTOQUE row = 0%Q
                  /\ VisaoGeral.PERC_RMA row = 0%Q).
Proof.
  destruct comb as [nf modelo]. unfold VisaoGeral.resumo_combinacao.
  set (df_nf := filter _ relatorio).
  destruct (taxa_Ok (VisaoGeral.conta
                       (fun r => VisaoGeral.local_is "INSTALADO" r && VisaoGeral.status_is "NOVO" r)
                       df_nf) (length df_nf)) as (q1 & -> & H1).
  destruct (taxa_Ok (VisaoGeral.conta (VisaoGeral.local_is "EM ESTOQUE") df_nf) (length df_nf))
    as (q2 & -> & H2).
  destruct (taxa_Ok (VisaoGeral.conta (VisaoGeral.local_is "RMA") df_nf) (length df_nf))
    as (q3 & -> & H3).
  simpl. eexists. split; [done|]. simpl. auto.
Qed.

Lemma manutencao_tipo_Ok (os_per : list OSCiclo) (tipo : string) :
  exists m, AnaliseMensal.manutencao_tipo os_per tipo = Ok m
            /\ (AnaliseMensal.total m = 0%nat ->
                AnaliseMensal.pct_novos m = 0%Q /\ AnaliseMensal.pct_reutilizados m = 0%Q).
Proof.
  unfold AnaliseMensal.manutencao_tipo. set (os_tipo := filter _ os_per).
  destruct (taxa_Ok (VisaoGeral.conta (fun r => bool_decide (CICLO r = 1%nat)) os_tipo)
                    (length os_tipo)) as (q1 & -> & H1).
  destruct (taxa_Ok (VisaoGeral.conta (fun r => (1 <? CICLO r)%nat) os_tipo)
                    (length os_tipo)) as (q2 & -> & H2).
  simpl. eexists. split; [done|]. simpl. auto.
Qed.

Lemma linha_ativacao_Ok `{Text} (relatorio rel_enriq : list Dados.RelatorioCarregado)
    (chave : string * string) :
  exists a, AnaliseMensal.linha_ativacao relatorio rel_enriq chave = Ok a
            /\ (AnaliseMensal.Comprados_Total_NF a = 0%nat -> AnaliseMensal.Taxa a = 0%Q).
Proof.
  destruct chave as [nf modelo]. unfold AnaliseMensal.linha_ativacao.
  set (grupo := filter _ rel_enriq). set (total_nf := VisaoGeral.conta _ relatorio).
  destruct (taxa_Ok (length grupo) total_nf) as (q & -> & Hq).
  simpl. eexists. split; [done|]. simpl. auto.
Qed.

(** C9. None of the rate computations raises, and each gives 0 on a
    zero denominator: the activation rate and the stock and RMA shares
    of a summary row with no purchased unit, the use rate of an empty
    state table, the new and reused shares of a maintenance type with
    no order in the period, the coverage with no active contract, and
    the period activation rate of a group with no purchased unit. *)
Theorem taxas_com_denominador_zero `{Text} :
  (forall relatorio,
     exists rows, VisaoGeral.gerar_resumo_nf relatorio = Ok rows
       /\ Forall (fun row => VisaoGeral.COMPRADOS row = 0%nat ->
                             VisaoGeral.TAXA_ATIVACAO row = 0%Q
                             /\ VisaoGeral.PERC_ESTOQUE row = 0%Q
                             /\ VisaoGeral.PERC_RMA row = 0%Q) rows)
  /\ (forall contratos relatorio,
        exists k, VisaoGeral.calcular_kpis_parque contratos relatorio = Ok k
          /\ (VisaoGeral.total_com_nf k = 0%nat -> VisaoGeral.taxa_utilizacao k = 0%Q))
  /\ (forall os_df data_inicio data_fim,
        exists ms, AnaliseMensal.calcular_manutencao os_df data_inicio data_fim = Ok ms
          /\ Forall (fun m => AnaliseMensal.total m.2 = 0%nat ->
                              AnaliseMensal.pct_novos m.2 = 0%Q
                              /\ AnaliseMensal.pct_reutilizados m.2 = 0%Q) ms)
  /\ (forall relatorio contratos,
        exists c, Auditoria.calcular_cruzamentos relatorio contratos = Ok c
          /\ (Auditoria.total_ativos c = 0%nat -> Auditoria.cobertura_relatorio c = 0%Q))
  /\ (forall os_df relatorio data_inicio data_fim,
        exists df n, AnaliseMensal.calcular_ativacoes os_df relatorio data_inicio data_fim
                     = Ok (df, n)
          /\ Forall (fun a => AnaliseMensal.Comprados_Total_NF a = 0%nat ->
                              AnaliseMensal.Taxa a = 0%Q) df).
Proof.
  repeat split.
  - intros relatorio. unfold VisaoGeral.gerar_resumo_nf.
    edestruct (mapM_Ok (VisaoGeral.resumo_combinacao relatorio)) as (rows & -> & Hrows);
      [apply resumo_combinacao_Ok|].
    simpl. eexists. split; [done|]. by rewrite sort_values_Permutation.
  - intros contratos relatorio. unfold VisaoGeral.calcular_kpis_parque.
    destruct (taxa_pct_Ok (VisaoGeral.conta (VisaoGeral.local_is "INSTALADO") relatorio)
                          (length relatorio)) as (q & -> & Hq).
    simpl. eexists. split; [done|]. simpl. auto.
  - intros os_df data_inicio data_fim. unfold AnaliseMensal.calcular_manutencao.
    apply mapM_Ok. intros tipo.
    destruct (manutencao_tipo_Ok (Dados.get_os_periodo os_df data_inicio data_fim) tipo)
      as (m & -> & Hm).
    simpl. eexists. split; [done|]. simpl. auto.
  - intros relatorio contratos. unfold Auditoria.calcular_cruzamentos.
    set (pat_ativos := list_to_set _). set (pat_rel := list_to_set _).
    destruct (taxa_pct_Ok (size (pat_ativos ∩ pat_rel)) (size pat_ativos)) as (q & -> & Hq).
    simpl. eexists. split; [done|]. simpl. auto.
  - intros os_df relatorio data_inicio data_fim. unfold AnaliseMensal.calcular_ativacoes.
    set (rel_enriq := Dados.enriquecer_com_relatorio _ relatorio).
    edestruct (mapM_Ok (AnaliseMensal.linha_ativacao relatorio rel_enriq))
      as (tabela & -> & Htab); [apply linha_ativacao_Ok|].
    simpl. eexists _, _. split; [done|]. by rewrite sort_values_Permutation.
Qed.

(** A state table whose only row has no model: its combination of NF
    and DESCRICAO selects no row, and the rates of its summary row are 0. *)
Example resumo_de_modelo_ausente :
  fmap (M := list)
       (fun row => (VisaoGeral.COMPRADOS row, VisaoGeral.TAXA_ATIVACAO row,
                    VisaoGeral.PERC_ESTOQUE row, VisaoGeral.PERC_RMA row))
    <$> VisaoGeral.gerar_resumo_nf
          [ {| Dados.rel_row := Dados.normalizar_relatorio
                                  (linha_de (Some "Emprestado") (Some "ALMOX CENTRAL"));
               Dados.ULTIMO_CICLO := None |} ]
  = Ok [(0%nat, 0%Q, 0%Q, 0%Q)].
Proof. reflexivity. Qed.

(** ** Period queries *)

Lemma ts_leb_Some (a b : option Timestamp) :
  Dados.ts_leb a b = true -> exists x y, a = Some x /\ b = Some y /\ (x <= y)%Z.
Proof.
  destruct a as [x|], b as [y|]; simpl; try done.
  intros Hle%Z.leb_le. by exists x, y.
Qed.

Lemma get_os_periodo_com_data (os_df : list OSCiclo) (data_inicio data_fim : option Timestamp) :
  Dados.get_os_periodo os_df data_inicio data_fim
  = Dados.get_os_periodo (com_data_fechamento os_df) data_inicio data_fim.
Proof.
  unfold Dados.get_os_periodo, com_data_fechamento. rewrite list_filter_filter.
  apply list_filter_iff. intros r. split; [|tauto].
  intros [H1 H2]. split; [done|].
  apply ts_leb_Some in H1 as (x & y & _ & -> & _). by eexists.
Qed.

(** C10. A period query returns only rows whose closing date is present
    and lies between the two bounds, both included; so the rows without
    a closing date may be deleted from the log without changing the
    rows of any period, nor the period's activations, maintenance
    figures or count of withdrawals. *)
Theorem periodo_exclui_os_sem_data_fechamento `{Text}
    (os_df : list OSCiclo) (relatorio : list Dados.RelatorioCarregado)
    (data_inicio data_fim : option Timestamp) :
  (forall r, r ∈ Dados.get_os_periodo os_df data_inicio data_fim ->
     r ∈ os_df
     /\ exists ini d fim,
          data_inicio = Some ini /\ data_fechamento_OS (os_row r) = Some d
          /\ data_fim = Some fim /\ (ini <= d <= fim)%Z)
  /\ (forall r ini d fim,
        r ∈ os_df -> data_inicio = Some ini -> data_fim = Some fim ->
        data_fechamento_OS (os_row r) = Some d -> (ini <= d <= fim)%Z ->
        r ∈ Dados.get_os_periodo os_df data_inicio data_fim)
  /\ Dados.get_os_periodo os_df data_inicio data_fim
     = Dados.get_os_periodo (com_data_fechamento os_df) data_inicio data_fim
  /\ AnaliseMensal.calcular_ativacoes os_df relatorio data_inicio data_fim
     = AnaliseMensal.calcular_ativacoes (com_data_fechamento os_df) relatorio
         data_inicio data_fim
  /\ AnaliseMensal.calcular_manutencao os_df data_inicio data_fim
     = AnaliseMensal.calcular_manutencao (com_data_fechamento os_df) data_inicio data_fim
  /\ AnaliseMensal.os_retirada_periodo os_df data_inicio data_fim
     = AnaliseMensal.os_retirada_periodo (com_data_fechamento os_df) data_inicio data_fim.
Proof.
  split.
  { intros r (Hr & Hin)%list_elem_of_filter. split; [done|]. destruct Hr as [H1 H2].
    apply ts_leb_Some in H1 as (ini & d & -> & Hd & Hle1).
    apply ts_leb_Some in H2 as (d' & fim & Hd' & -> & Hle2).
    exists ini, d, fim. rewrite Hd in Hd'. injection Hd' as <-. repeat split; done. }
  split.
  { intros r ini d fim Hin -> -> Hd [Hle1 Hle2]. apply list_elem_of_filter. split; [|done].
    rewrite Hd. simpl. split; by apply Z.leb_le. }
  split; [apply get_os_periodo_com_data|].
  unfold AnaliseMensal.calcular_ativacoes, AnaliseMensal.calcular_manutencao,
    AnaliseMensal.os_retirada_periodo.
  by rewrite <- get_os_periodo_com_data.
Qed.

(** A log with an undated installation: it is in no period, not even
    the one that spans every timestamp of the log. *)
Example os_sem_data_fora_do_periodo :
  let os_df := calcular_ciclo
                 [ os_exemplo "1" "A1" None (Some "INSTALACAO") (Some "Emprestado") None;
                   os_exemplo "2" "A1" (Some 1717200000000000000%Z) (Some "INSTALACAO")
                              (Some "Emprestado") None ] in
  (fun r => ID_Ordem_de_Servico (os_row r))
    <$> Dados.get_os_periodo os_df (Some 0%Z) (Some 1800000000000000000%Z)
  = [Some "2"].
Proof. reflexivity. Qed.

(** * Further properties of the code *)

(** ** [integrar_os] *)

Lemma drop_duplicates_from_sublist (seen : gset (option string)) (l : list OSRow) :
  drop_duplicates_from seen l `sublist_of` l.
Proof.
  revert seen. induction l as [|x l IH]; intros seen; [done|].
  rewrite drop_duplicates_from_cons. case_bool_decide.
  - by apply sublist_cons.
  - by apply sublist_skip.
Qed.

Lemma drop_duplicates_from_sem_duplicadas (seen : gset (option string)) (l : list OSRow) :
  length (filter (fun b => b = true) (Dados.duplicated_from seen l)) = 0%nat ->
  drop_duplicates_from seen l = l.
Proof.
  revert seen. induction l as [|x l IH]; intros seen; [done|].
  rewrite drop_duplicates_from_cons. simpl Dados.duplicated_from. rewrite filter_cons.
  case_bool_decide as Hx.
  - rewrite decide_True by done. done.
  - rewrite decide_False by done. intros Hn. by rewrite IH.
Qed.

(** The appended orders: the first occurrences of the file whose
    identifier text is not in the base. *)
Lemma integrar_os_novos (df_novo df_base : list OSRow) :
  AtualizarMes.integrar_os df_novo df_base
  = (df_base
       ++ filter (fun r => astype_str (ID_Ordem_de_Servico r)
                           ∉ (list_to_set (omap ID_Ordem_de_Servico df_base) : gset string))
                 (drop_duplicates_from ∅ df_novo),
     length (filter (fun r => astype_str (ID_Ordem_de_Servico r)
                              ∉ (list_to_set (omap ID_Ordem_de_Servico df_base) : gset string))
                    (drop_duplicates_from ∅ df_novo))).
Proof.
  unfold AtualizarMes.integrar_os.
  assert ((if (0 <? length (filter (fun b => b = true) (Dados.duplicated df_novo)))%nat
           then Dados.drop_duplicates df_novo else df_novo)
          = drop_duplicates_from ∅ df_novo) as ->.
  { destruct (0 <? _)%nat eqn:E; [done|]. apply Nat.ltb_ge in E.
    symmetry. apply drop_duplicates_from_sem_duplicadas. unfold Dados.duplicated in E. lia. }
  cbv zeta. case_bool_decide as Hn; [|done].
  apply length_zero_iff_nil in Hn. rewrite Hn. by rewrite app_nil_r.
Qed.

(** X1. [integrar_os] keeps the base as it is and appends, in the order
    of the month's file, exactly the rows that are the first of their
    order identifier in the file and whose identifier, as text, is the
    identifier of no row of the base; the count it returns is the number
    of rows appended. *)
Theorem integrar_os_acrescenta_as_novas (df_novo df_base : list OSRow) :
  exists novos,
    AtualizarMes.integrar_os df_novo df_base = (df_base ++ novos, length novos)
    /\ novos `sublist_of` df_novo
    /\ forall r,
         r ∈ novos
         <-> (exists i,
                df_novo !! i = Some r
                /\ (forall j r1, (j < i)%nat -> df_novo !! j = Some r1 ->
                                 ID_Ordem_de_Servico r1 <> ID_Ordem_de_Servico r)
                /\ (forall b s, b ∈ df_base -> ID_Ordem_de_Servico b = Some s ->
                                s <> astype_str (ID_Ordem_de_Servico r))).
Proof.
  eexists. split; [apply integrar_os_novos|]. split.
  - etrans; [apply sublist_filter|apply drop_duplicates_from_sublist].
  - intros r. rewrite list_elem_of_filter, elem_of_drop_duplicates_from.
    rewrite elem_of_list_to_set, list_elem_of_omap. split.
    + intros (Hb & i & Hi & _ & Hf). exists i. repeat split; [done..|].
      intros b s Hin Hs ->. apply Hb. by exists b.
    + intros (i & Hi & Hf & Hb). split.
      * intros (b & Hin & Hs). by apply (Hb b _ Hin Hs).
      * exists i. repeat split; [done|set_solver|done].
Qed.








(** Without the proviso the re-run is not idle: a row whose identifier
    cell is empty is appended again. *)
Example integrar_os_sem_identificador :
  let sem_id := {| ID_Ordem_de_Servico := None;
                   data_fechamento_OS := None;
                   Descricao_Assunto := None;
                   ID_cliente := None;
                   Almoxarifado := None;
                   descricao_produto := None;
                   id_patrimonio := Some "A1";
                   status_comodato := None;
                   ASSUNTO_PADRONIZADO := None |} in
  (AtualizarMes.integrar_os [sem_id] (AtualizarMes.integrar_os [sem_id] []).1).2 = 1%nat.
Proof. reflexivity. Qed.

(** ** The tables [load_data] builds from config *)

Lemma dict_snoc `{Countable K} {A} (l : list (K * A)) (k : K) (v : A) :
  dict (l ++ [(k, v)]) = <[k := v]> (dict l).
Proof. unfold dict. by rewrite foldl_app. Qed.

(** Looking a key up in [dict(pairs)]: the pairs on the right win. *)
Lemma dict_app_lookup `{Countable K} {A} (a b : list (K * A)) (k : K) :
  dict (a ++ b) !! k = match dict b !! k with Some v => Some v | None => dict a !! k end.
Proof.
  induction b as [|[k' v'] b IH] using rev_ind.
  - by rewrite app_nil_r.
  - rewrite app_assoc, !dict_snoc. destruct (decide (k' = k)) as [->|Hne].
    + by rewrite !lookup_insert_eq.
    + by rewrite !lookup_insert_ne.
Qed.

Lemma dict_lookup_last `{Countable K} {A} (l : list (K * A)) (k : K) :
  dict l !! k = snd <$> last (filter (fun p => p.1 = k) l).
Proof.
  induction l as [|[k' v'] l IH] using rev_ind; [done|].
  rewrite dict_snoc, filter_app, filter_cons, filter_nil. simpl.
  destruct (decide (k' = k)) as [->|Hne].
  - by rewrite lookup_insert_eq, last_snoc.
  - by rewrite lookup_insert_ne, app_nil_r.
Qed.

Lemma dict_lookup_None `{Countable K} {A} (l : list (K * A)) (k : K) :
  dict l !! k = None <-> k ∉ l.*1.
Proof.
  induction l as [|[k' v'] l IH] using rev_ind.
  - split; [intros _; apply not_elem_of_nil|done].
  - rewrite dict_snoc, fmap_app, not_elem_of_app. simpl.
    destruct (decide (k' = k)) as [->|Hne].
    + rewrite lookup_insert_eq. split; [done|]. intros [_ Hk]. exfalso. apply Hk. left.
    + rewrite lookup_insert_ne by done. rewrite IH. split; [|tauto].
      intros Hk. split; [done|]. intros Hin%list_elem_of_singleton. congruence.
Qed.

(** A filter on the keys removes the filtered keys and leaves the
    other lookups alone. *)
Lemma dict_filter_lookup `{Countable K} {A} (P : K -> Prop) `{!forall k, Decision (P k)}
    (l : list (K * A)) (k : K) :
  dict (filter (fun p => P p.1) l) !! k = if decide (P k) then dict l !! k else None.
Proof.
  induction l as [|[k' v'] l IH] using rev_ind.
  - by destruct (decide (P k)).
  - rewrite filter_app, filter_cons, filter_nil. simpl.
    destruct (decide (P k')) as [Hk'|Hk'].
    + rewrite !dict_snoc. destruct (decide (k' = k)) as [->|Hne].
      * rewrite !lookup_insert_eq. by rewrite decide_True.
      * by rewrite !lookup_insert_ne.
    + rewrite app_nil_r, IH, dict_snoc. destruct (decide (P k)) as [Hk|Hk]; [|done].
      rewrite lookup_insert_ne; [done|]. by intros ->.
Qed.

(** The rows [classificar] appends list no DE and no PARA. *)
Lemma classificar_colunas_de_para (cfg : list ConfigRow) :
  omap DE (Dados.classificar cfg).2 = omap DE cfg
  /\ omap PARA (Dados.classificar cfg).2 = omap PARA cfg.
Proof.
  unfold Dados.classificar.
  generalize (dict (zip (MODELO <$> cfg) (OBSOLETO_q <$> cfg))).
  generalize Dados.modelos_nao_obsoletos. intros ms. revert cfg.
  induction ms as [|m ms IH]; intros cfg obs; [done|].
  simpl. case_bool_decide.
  - apply IH.
  - simpl. destruct (IH (cfg ++ [Dados.nova_linha_modelo m])
                        (<[Some m := Some "Não"]> obs)) as [-> ->].
    rewrite !omap_app. simpl. by rewrite !app_nil_r.
Qed.

Lemma completar_de_para_acrescenta (cfg : list ConfigRow) :
  Dados.completar_de_para cfg
  = cfg ++ ((fun p => Dados.nova_linha_de_para p.1 p.2)
              <$> filter (fun p => p.1 ∉ omap DE cfg) Dados.MAPEAMENTO_DE_PARA_items).
Proof.
  unfold Dados.completar_de_para. cbv zeta.
  generalize Dados.MAPEAMENTO_DE_PARA_items. generalize (omap DE cfg). intros des items.
  assert (Hg : forall acc,
             foldl (fun acc p => if bool_decide (p.1 ∈ des) then acc
                                 else acc ++ [Dados.nova_linha_de_para p.1 p.2]) acc items
             = acc ++ ((fun p => Dados.nova_linha_de_para p.1 p.2)
                         <$> filter (fun p => p.1 ∉ des) items)).
  { induction items as [|p items IH]; intros acc; simpl.
    - by rewrite app_nil_r.
    - rewrite filter_cons. case_bool_decide as Hp.
      + rewrite decide_False by tauto. apply IH.
      + rewrite decide_True by done. rewrite IH, fmap_cons, <- app_assoc. done. }
  apply Hg.
Qed.

Lemma dict_fmap_lookup_last `{Countable K} {A B} (f : A -> K) (g : A -> B)
    (l : list A) (k : K) :
  dict (zip (f <$> l) (g <$> l)) !! k = g <$> last (filter (fun x => f x = k) l).
Proof.
  assert (Hz : zip (f <$> l) (g <$> l) = (fun x => (f x, g x)) <$> l).
  { induction l as [|x l IH]; [done|]. rewrite !fmap_cons. simpl. by rewrite IH. }
  rewrite Hz. clear Hz. induction l as [|x l IH] using rev_ind; [done|].
  rewrite fmap_app. simpl. rewrite dict_snoc, filter_app, filter_cons, filter_nil.
  destruct (decide (f x = k)) as [->|Hne].
  - by rewrite lookup_insert_eq, last_snoc.
  - by rewrite lookup_insert_ne, app_nil_r.
Qed.

Lemma classificar_obs (cfg : list ConfigRow) (k : option string) :
  (Dados.classificar cfg).1 !! k
  = match dict (zip (MODELO <$> cfg) (OBSOLETO_q <$> cfg)) !! k with
    | Some v => Some v
    | None => if bool_decide (k ∈ Some <$> Dados.modelos_nao_obsoletos)
              then Some (Some "Não") else None
    end.
Proof.
  unfold Dados.classificar.
  generalize (dict (zip (MODELO <$> cfg) (OBSOLETO_q <$> cfg))).
  generalize Dados.modelos_nao_obsoletos. intros ms. revert cfg.
  induction ms as [|m ms IH]; intros cfg obs.
  - simpl. by destruct (obs !! k).
  - rewrite fmap_cons. cbn [foldl fst snd].
    destruct (bool_decide (is_Some (obs !! Some m))) eqn:Hm.
    + apply bool_decide_eq_true in Hm. rewrite IH. destruct (obs !! k) eqn:Ek; [done|].
      destruct (decide (k = Some m)) as [->|Hne].
      * rewrite Ek in Hm. by destruct Hm.
      * repeat case_bool_decide; set_solver.
    + apply bool_decide_eq_false in Hm. rewrite IH.
      destruct (decide (k = Some m)) as [->|Hne].
      * rewrite lookup_insert_eq.
        assert (obs !! Some m = None) as -> by (by apply eq_None_not_Some).
        rewrite bool_decide_eq_true_2 by left. done.
      * rewrite lookup_insert_ne by done. destruct (obs !! k); [done|].
        repeat case_bool_decide; set_solver.
Qed.

Lemma load_data_config (wb : Workbook) :
  Dados.obs_map (Dados.load_data wb) = (Dados.classificar (config wb)).1
  /\ Dados.config_out (Dados.load_data wb)
     = Dados.completar_de_para (Dados.classificar (config wb)).2
  /\ Dados.assunto_map (Dados.load_data wb)
     = assunto_map_of (Dados.completar_de_para (Dados.classificar (config wb)).2)
  /\ Dados.contratos (Dados.load_data wb)
     = Dados.carregar_contrato (Dados.classificar (config wb)).1 <$> CONTRATOS wb.
Proof.
  unfold Dados.load_data. destruct (Dados.limpar_os (OS wb)) as [os_limpo lim].
  by destruct (Dados.classificar (config wb)) as [obs cfg1].
Qed.

(** X4. After [load_data], a model is classified by the OBSOLETO? cell
    of the last config row that lists it; the three known models are
    classified "Não" when config does not list them, and no other model
    is classified. Every contract gets an OBSOLETO value, "Não" when
    its model is not classified or the cell is empty. *)
Theorem obsolescencia_pela_ultima_linha_do_config (wb : Workbook) :
  (forall k : option string,
     Dados.obs_map (Dados.load_data wb) !! k
     = match last (filter (fun r => MODELO r = k) (config wb)) with
       | Some r => Some (OBSOLETO_q r)
       | None => if bool_decide (k ∈ Some <$> Dados.modelos_nao_obsoletos)
                 then Some (Some "Não") else None
       end)
  /\ Forall2 (fun c c' =>
                Dados.contrato_row c' = c
                /\ Dados.OBSOLETO c'
                   = Some (default "Não"
                             (last (filter (fun r => MODELO r = Descricao_eqpto c) (config wb))
                                ≫= OBSOLETO_q)))
             (CONTRATOS wb) (Dados.contratos (Dados.load_data wb)).
Proof.
  destruct (load_data_config wb) as (-> & _ & _ & ->).
  assert (Hk : forall k : option string,
             (Dados.classificar (config wb)).1 !! k
             = match last (filter (fun r => MODELO r = k) (config wb)) with
               | Some r => Some (OBSOLETO_q r)
               | None => if bool_decide (k ∈ Some <$> Dados.modelos_nao_obsoletos)
                         then Some (Some "Não") else None
               end).
  { intros k. rewrite classificar_obs, dict_fmap_lookup_last.
    by destruct (last _). }
  split; [done|].
  apply Forall2_fmap_r, Forall_Forall2_diag, Forall_forall. intros c _.
  split; [done|]. unfold Dados.carregar_contrato. simpl. rewrite Hk.
  destruct (last _) as [r|]; simpl; [by destruct (OBSOLETO_q r)|].
  by case_bool_decide.
Qed.

Lemma zip_fst_snd {A B} (l : list (A * B)) : zip l.*1 l.*2 = l.
Proof. induction l as [|[a b] l IH]; [done|]. csimpl. by rewrite IH. Qed.

Lemma zip_app_mesmos {A B} (a a' : list A) (b b' : list B) :
  length a = length b -> zip (a ++ a') (b ++ b') = zip a b ++ zip a' b'.
Proof.
  revert b. induction a as [|x a IH]; intros [|y b] Hl; try done.
  simpl. rewrite IH; [done|]. simpl in Hl. lia.
Qed.

Lemma colunas_nova_linha_de_para (F : list (string * string)) :
  omap DE ((fun p => Dados.nova_linha_de_para p.1 p.2) <$> F) = F.*1
  /\ omap PARA ((fun p => Dados.nova_linha_de_para p.1 p.2) <$> F) = F.*2.
Proof.
  induction F as [|p F [IH1 IH2]]; [done|]. csimpl. by rewrite IH1, IH2.
Qed.

(** X5. When the DE and PARA columns of config have as many filled
    cells, the DE/PARA map that [load_data] returns is the map of the
    sheet completed by the built-in table [MAPEAMENTO_DE_PARA]: an entry
    of the sheet is never replaced, and every built-in key is mapped. *)
Theorem assunto_map_completa_o_config (wb : Workbook) :
  length (omap DE (config wb)) = length (omap PARA (config wb)) ->
  Dados.assunto_map (Dados.load_data wb)
  = assunto_map_of (config wb) ∪ dict Dados.MAPEAMENTO_DE_PARA_items.
Proof.
  intros Hlen. destruct (load_data_config wb) as (_ & _ & -> & _).
  rewrite completar_de_para_acrescenta. unfold assunto_map_of. rewrite !omap_app.
  destruct (classificar_colunas_de_para (config wb)) as [-> ->].
  set (F := filter _ Dados.MAPEAMENTO_DE_PARA_items).
  destruct (colunas_nova_linha_de_para F) as [-> ->].
  rewrite zip_app_mesmos by done. rewrite zip_fst_snd.
  apply map_eq. intros k. rewrite dict_app_lookup, lookup_union. subst F.
  pose proof (dict_filter_lookup (fun d => d ∉ omap DE (config wb))
                Dados.MAPEAMENTO_DE_PARA_items k) as HF.
  cbv beta in HF. rewrite HF. clear HF.
  set (a := dict (zip (omap DE (config wb)) (omap PARA (config wb)))).
  assert (Ha : a !! k = None <-> k ∉ omap DE (config wb)).
  { subst a. rewrite dict_lookup_None. rewrite fst_zip by lia. reflexivity. }
  destruct (decide (k ∉ omap DE (config wb))) as [Hk|Hk].
  - rewrite (proj2 Ha Hk). by destruct (dict _ !! k).
  - destruct (a !! k) eqn:E; [by destruct (dict _ !! k)|]. exfalso. by apply Hk, Ha.
Qed.

Lemma assunto_map_completa_o_config_witness :
  length (omap DE (config planilha_config_descontinuado))
  = length (omap PARA (config planilha_config_descontinuado))
  /\ Dados.assunto_map (Dados.load_data planilha_config_descontinuado)
       !! "Instalação Internet (descontinuado)" = Some "MANUTENCAO"
  /\ Dados.assunto_map (Dados.load_data planilha_config_descontinuado)
     = assunto_map_of (config planilha_config_descontinuado)
       ∪ dict Dados.MAPEAMENTO_DE_PARA_items.
Proof.
  split; [reflexivity|]. split; [reflexivity|].
  apply (assunto_map_completa_o_config planilha_config_descontinuado). reflexivity.
Defined.

(** ** The cleaning counts *)

Lemma length_dropna_id_patrimonio (os0 : list OSRow) :
  length os0
  = (length (filter (fun r => id_patrimonio r = None) os0)
     + length (dropna_id_patrimonio os0))%nat.
Proof.
  unfold dropna_id_patrimonio. induction os0 as [|r l IH]; [done|].
  rewrite !filter_cons. destruct (id_patrimonio r) as [u|] eqn:E.
  - rewrite decide_False by done. rewrite decide_True by by eexists. simpl. lia.
  - rewrite decide_True by done. rewrite decide_False by (by intros [? ?]). simpl. lia.
Qed.

(** X6. Every row of the OS sheet is accounted for by [load_data]: the
    rows read are those dropped for having no unit, those dropped as
    duplicated orders and those of the cleaned log; and every row of
    the cleaned log has a unit. *)
Theorem limpeza_fecha_a_conta (wb : Workbook) :
  let d := Dados.load_data wb in
  Dados.os_total_bruto (Dados.limpeza d) = length (OS wb)
  /\ Dados.os_total_bruto (Dados.limpeza d)
     = (Dados.os_sem_patrimonio (Dados.limpeza d) + Dados.os_duplicadas (Dados.limpeza d)
        + length (Dados.os d))%nat
  /\ Forall (fun r => is_Some (id_patrimonio (os_row r))) (Dados.os d).
Proof.
  intros d. subst d. destruct (load_data_os wb) as [-> ->].
  assert (Hlen : length (calcular_ciclo (Dados.limpar_os (OS wb)).1)
                 = length (Dados.limpar_os (OS wb)).1).
  { rewrite <- (length_fmap os_row). by rewrite os_row_calcular_ciclo. }
  split; [done|]. split.
  - rewrite Hlen. pose proof (limpar_os_duplicadas (OS wb)) as Hd.
    change (Dados.os_total_bruto (Dados.limpar_os (OS wb)).2) with (length (OS wb)).
    change (Dados.os_sem_patrimonio (Dados.limpar_os (OS wb)).2)
      with (length (filter (fun r => id_patrimonio r = None) (OS wb))).
    rewrite (length_dropna_id_patrimonio (OS wb)). lia.
  - apply Forall_forall. intros r Hr.
    assert (Hin : os_row r ∈ os_row <$> calcular_ciclo (Dados.limpar_os (OS wb)).1)
      by (apply list_elem_of_fmap; eauto).
    rewrite os_row_calcular_ciclo, limpar_os_fst in Hin.
    apply list_elem_of_fmap in Hin as (r0 & -> & _). by eexists.
Qed.

(** X7. On the ingestion tab the four counters add up (rows read = rows
    without unit + duplicates removed + rows in use) as soon as one row
    of the cleaned log has a closing date; when none has, the page
    reports 0 rows in use, whatever the cleaned log holds. *)
Theorem qualidade_ingestao_fecha_a_conta (wb : Workbook) :
  let d := Dados.load_data wb in
  let q := Auditoria.calcular_qualidade_ingestao (Dados.os d) (Dados.limpeza d) in
  (Exists (fun r => is_Some (data_fechamento_OS (os_row r))) (Dados.os d) ->
   Auditoria.os_bruto q
   = (Auditoria.qual_os_sem_patrimonio q + Auditoria.duplicados_removidos q
      + Auditoria.total_os q)%nat)
  /\ (Forall (fun r => data_fechamento_OS (os_row r) = None) (Dados.os d) ->
      Auditoria.total_os q = 0%nat).
Proof.
  intros d q. destruct (limpeza_fecha_a_conta wb) as (_ & Hconta & _). fold d in Hconta.
  subst q. unfold Auditoria.calcular_qualidade_ingestao. simpl. split.
  - intros Hex. destruct (omap _ (Dados.os d)) eqn:E; [|done].
    exfalso. apply Exists_exists in Hex as (r & Hr & [t Ht]).
    assert (t ∈ omap (fun r => data_fechamento_OS (os_row r)) (Dados.os d))
      by (apply list_elem_of_omap; eauto).
    rewrite E in H. by apply elem_of_nil in H.
  - intros Hall. destruct (omap _ (Dados.os d)) as [|t l] eqn:E; [done|].
    exfalso. assert (Ht : t ∈ omap (fun r => data_fechamento_OS (os_row r)) (Dados.os d))
      by (rewrite E; left).
    apply list_elem_of_omap in Ht as (r & Hr & Hrt).
    rewrite Forall_forall in Hall. rewrite (Hall r Hr) in Hrt. done.
Qed.

(** The two orders of [planilha_os_555_sem_patrimonio] give 2 = 1 + 0 + 1. *)
Example qualidade_ingestao_os_555 :
  let d := Dados.load_data planilha_os_555_sem_patrimonio in
  let q := Auditoria.calcular_qualidade_ingestao (Dados.os d) (Dados.limpeza d) in
  (Auditoria.os_bruto q, Auditoria.qual_os_sem_patrimonio q,
   Auditoria.duplicados_removidos q, Auditoria.total_os q)
  = (2%nat, 1%nat, 0%nat, 1%nat).
Proof. reflexivity. Qed.

(** ** The audit's cross-checks *)

Lemma size_difference_intersection `{Countable K} (X Y : gset K) :
  (size (X ∖ Y) + size (X ∩ Y) = size X)%nat.
Proof.
  rewrite <- size_union by set_solver. f_equal. apply set_eq. intros x.
  rewrite elem_of_union, elem_of_difference, elem_of_intersection.
  destruct (decide (x ∈ Y)); tauto.
Qed.

(** X8. The counters of the integrity tab are consistent: the units of
    RELATORIO without order and the units of OS without row in
    RELATORIO are disjoint sets, each counted by its counter, and
    removing them from either side leaves the same units, so that
    units(RELATORIO) + OS-only = units(OS) + RELATORIO-only; the units of
    CONTRATOS without invoice are at most the units of CONTRATOS. *)
Theorem integridade_contadores_coerentes (os_df : list OSCiclo)
    (relatorio : list Dados.RelatorioCarregado) (contratos : list Dados.ContratoCarregado)
    (lim : Dados.Limpeza) :
  let i := Auditoria.calcular_integridade os_df relatorio contratos lim in
  Auditoria.pat_relatorio_sem_os i ## Auditoria.pat_os_sem_relatorio i
  /\ Auditoria.qtd_pat_sem_os i = size (Auditoria.pat_relatorio_sem_os i)
  /\ Auditoria.qtd_pat_os_sem_rel i = size (Auditoria.pat_os_sem_relatorio i)
  /\ (Auditoria.total_pat_relatorio i + Auditoria.qtd_pat_os_sem_rel i
      = Auditoria.total_pat_os i + Auditoria.qtd_pat_sem_os i)%nat
  /\ (Auditoria.qtd_pat_sem_os i <= Auditoria.total_pat_relatorio i)%nat
  /\ (Auditoria.qtd_pat_os_sem_rel i <= Auditoria.total_pat_os i)%nat
  /\ (Auditoria.qtd_sem_nf i <= Auditoria.total_pat_contratos i)%nat
  /\ (forall u, u ∈ Auditoria.pat_relatorio_sem_os i
                <-> (exists r, r ∈ relatorio /\ PATRIMONIO (Dados.rel_row r) = Some u)
                    /\ ~ exists e, e ∈ os_df /\ id_patrimonio (os_row e) = Some u).
Proof.
  intros i. subst i. unfold Auditoria.calcular_integridade. simpl.
  set (pat_rel := list_to_set (omap _ relatorio) : gset string).
  set (pat_os := list_to_set (omap _ os_df) : gset string).
  set (pat_c := list_to_set _ : gset string).
  pose proof (size_difference_intersection pat_rel pat_os) as H1.
  pose proof (size_difference_intersection pat_os pat_rel) as H2.
  pose proof (size_difference_intersection pat_c pat_rel) as H3.
  assert (pat_os ∩ pat_rel = pat_rel ∩ pat_os) as Hc by set_solver. rewrite Hc in H2.
  split; [set_solver|]. split; [done|]. split; [done|].
  split; [lia|]. split; [lia|]. split; [lia|]. split; [lia|].
  intros u. rewrite elem_of_difference. subst pat_rel pat_os.
  rewrite !elem_of_list_to_set, !list_elem_of_omap. done.
Qed.

(** ** Maintenance orders, new and reused *)

Lemma mapM_Ok_Forall2 {A B} (f : A -> result B) (P : A -> B -> Prop) (l : list A) :
  (forall x, exists y, f x = Ok y /\ P x y) ->
  exists ys, mapM f l = Ok ys /\ Forall2 P l ys.
Proof.
  intros Hf. induction l as [|x l (ys & Hys & HP)]; simpl.
  - by exists [].
  - destruct (Hf x) as (y & Hy & Py). exists (y :: ys).
    rewrite Hy. simpl. rewrite Hys. simpl. split; [done|]. by constructor.
Qed.

Lemma cumcount_from_CICLO_positivo (seen : gmap (option string) nat) (l : list OSRow) :
  Forall (fun r => (1 <= CICLO r)%nat) (cumcount_from seen l).
Proof.
  revert seen. induction l as [|r l IH]; intros seen; simpl; constructor; [simpl; lia|done].
Qed.

Lemma conta_novos_reutilizados (l : list OSCiclo) :
  Forall (fun r => (1 <= CICLO r)%nat) l ->
  (VisaoGeral.conta (fun r => bool_decide (CICLO r = 1%nat)) l
   + VisaoGeral.conta (fun r => (1 <? CICLO r)%nat) l = length l)%nat.
Proof.
  unfold VisaoGeral.conta. induction 1 as [|r l Hr Hl IH]; [done|].
  rewrite !filter_cons. simpl.
  destruct (decide (CICLO r = 1%nat)) as [E|E].
  - rewrite decide_True by (by apply bool_decide_eq_true).
    rewrite decide_False by (rewrite E; done). simpl. lia.
  - rewrite decide_False by (by rewrite bool_decide_eq_true).
    rewrite decide_True by (apply Nat.ltb_lt; lia). simpl. lia.
Qed.

(** X9. In the maintenance figures of a period computed on the log of
    [load_data], for each of MANUTENCAO, MESH and UPGRADE, in that
    order, the orders on new units (CICLO = 1) and on reused units
    (CICLO > 1) add up to the total of the type. *)
Theorem manutencao_novos_mais_reutilizados (wb : Workbook)
    (data_inicio data_fim : option Timestamp) :
  exists ms,
    AnaliseMensal.calcular_manutencao (Dados.os (Dados.load_data wb)) data_inicio data_fim
    = Ok ms
    /\ ms.*1 = ["MANUTENCAO"; "MESH"; "UPGRADE"]
    /\ Forall (fun m => (AnaliseMensal.novos m.2 + AnaliseMensal.reutilizados m.2
                         = AnaliseMensal.total m.2)%nat) ms.
Proof.
  destruct (load_data_os wb) as [-> _]. unfold AnaliseMensal.calcular_manutencao.
  set (os_per := Dados.get_os_periodo _ _ _).
  assert (Hpos : Forall (fun r => (1 <= CICLO r)%nat) os_per).
  { apply Forall_forall. intros r Hr. apply list_elem_of_filter in Hr as [_ Hr].
    revert r Hr. apply Forall_forall, cumcount_from_CICLO_positivo. }
  edestruct (mapM_Ok_Forall2
               (fun tipo => m ← AnaliseMensal.manutencao_tipo os_per tipo; mret (tipo, m))
               (fun tipo m => m.1 = tipo
                              /\ (AnaliseMensal.novos m.2 + AnaliseMensal.reutilizados m.2
                                  = AnaliseMensal.total m.2)%nat)
               ["MANUTENCAO"; "MESH"; "UPGRADE"]) as (ms & Hms & Hall).
  { intros tipo. unfold AnaliseMensal.manutencao_tipo.
    set (os_tipo := filter _ os_per).
    assert (Htipo : Forall (fun r => (1 <= CICLO r)%nat) os_tipo).
    { apply Forall_forall. intros r Hr. apply list_elem_of_filter in Hr as [_ Hr].
      rewrite Forall_forall in Hpos. auto. }
    destruct (taxa_Ok (VisaoGeral.conta (fun r => bool_decide (CICLO r = 1%nat)) os_tipo)
                      (length os_tipo)) as (q1 & -> & _).
    destruct (taxa_Ok (VisaoGeral.conta (fun r => (1 <? CICLO r)%nat) os_tipo)
                      (length os_tipo)) as (q2 & -> & _).
    simpl. eexists. split; [done|]. simpl. split; [done|].
    by apply conta_novos_reutilizados. }
  exists ms. split; [done|]. split.
  - clear Hms. induction Hall as [|t m ts ms [Ht _] _ IH]; [done|]. csimpl. by rewrite Ht, IH.
  - clear Hms. induction Hall as [|t m ts ms [_ Hm] _ IH]; constructor; done.
Qed.

(** ** Canonical subjects *)

Lemma repadronizar_repadronizar (r : OSRow) :
  AtualizarMes.repadronizar (AtualizarMes.repadronizar r) = AtualizarMes.repadronizar r.
Proof.
  unfold AtualizarMes.repadronizar, set_ASSUNTO_PADRONIZADO. simpl. f_equal.
  destruct (ASSUNTO_PADRONIZADO r) as [s|]; [|done]. simpl. f_equal.
  destruct (PADRONIZACAO_ASSUNTO !! s) as [v|] eqn:E; simpl.
  - by rewrite (PADRONIZACAO_ASSUNTO_final s v E).
  - by rewrite E.
Qed.

(** X10. The canonical renaming is final. A file that went through
    [padronizar_colunas] comes out unchanged when it goes through it
    again with its ASSUNTO PADRONIZADO column, whatever config then
    holds, and the renaming that [load_data] applies to the log leaves
    its rows as they are. *)
Theorem padronizar_colunas_e_final (df : AtualizarMes.ArquivoOS) (cfg cfg' : list ConfigRow)
    (tem_descricao : bool) (saida : list OSRow) :
  AtualizarMes.padronizar_colunas df cfg = Some saida ->
  AtualizarMes.padronizar_colunas
    {| AtualizarMes.tem_ASSUNTO_PADRONIZADO := true;
       AtualizarMes.tem_Descricao_Assunto := tem_descricao;
       AtualizarMes.linhas := saida |} cfg' = Some saida
  /\ (fun r => set_ASSUNTO_PADRONIZADO
                 (replace PADRONIZACAO_ASSUNTO (ASSUNTO_PADRONIZADO r)) r) <$> saida
     = saida.
Proof.
  unfold AtualizarMes.padronizar_colunas. intros Hs.
  assert (Hr : exists l, saida = AtualizarMes.repadronizar <$> l).
  { destruct (AtualizarMes.tem_ASSUNTO_PADRONIZADO df); simpl in Hs.
    - injection Hs as <-. by eexists.
    - destruct (AtualizarMes.tem_Descricao_Assunto df); simpl in Hs; [|done].
      injection Hs as <-. by eexists. }
  destruct Hr as [l ->].
  assert (Hfix : AtualizarMes.repadronizar <$> (AtualizarMes.repadronizar <$> l)
                 = AtualizarMes.repadronizar <$> l).
  { rewrite <- list_fmap_compose. apply list_fmap_ext. intros _ r _. simpl.
    apply repadronizar_repadronizar. }
  split; [simpl; by rewrite Hfix|exact Hfix].
Qed.

Lemma padronizar_colunas_e_final_witness :
  AtualizarMes.padronizar_colunas arquivo_descontinuado config_descontinuado
  = Some (AtualizarMes.repadronizar
            <$> (AtualizarMes.gerar_assunto (assunto_map_of config_descontinuado)
                   <$> AtualizarMes.linhas arquivo_descontinuado))
  /\ AtualizarMes.padronizar_colunas
       {| AtualizarMes.tem_ASSUNTO_PADRONIZADO := true;
          AtualizarMes.tem_Descricao_Assunto := true;
          AtualizarMes.linhas :=
            AtualizarMes.repadronizar
              <$> (AtualizarMes.gerar_assunto (assunto_map_of config_descontinuado)
                     <$> AtualizarMes.linhas arquivo_descontinuado) |} []
     = Some (AtualizarMes.repadronizar
               <$> (AtualizarMes.gerar_assunto (assunto_map_of config_descontinuado)
                      <$> AtualizarMes.linhas arquivo_descontinuado)).
Proof.
  split; [reflexivity|].
  exact (proj1 (padronizar_colunas_e_final arquivo_descontinuado config_descontinuado []
                  true _ eq_refl)).
Defined.

(** ** The date of the last order *)

Lemma last_notna_cons {A B} (col : A -> option B) (x : A) (g : list A) :
  last_notna col (x :: g)
  = match last_notna col g with Some v => Some v | None => col x end.
Proof.
  unfold last_notna. simpl.
  assert (Hg : forall acc : option B,
             foldl (fun acc r => match col r with Some v => Some v | None => acc end) acc g
             = match foldl (fun acc r => match col r with Some v => Some v | None => acc end)
                           None g with
               | Some v => Some v
               | None => acc
               end).
  { induction g as [|y g IH]; intros acc; [done|]. simpl.
    rewrite (IH (match col y with Some v => Some v | None => acc end)).
    rewrite (IH (match col y with Some v => Some v | None => None end)).
    destruct (foldl _ None g); [done|]. by destruct (col y). }
  rewrite Hg. destruct (foldl _ None g); [done|]. by destruct (col x).
Qed.

Lemma os_date_leb_total (x y : OSRow) : os_date_leb x y = true \/ os_date_leb y x = true.
Proof. apply (leb_of_total _ (good_cmp_cell _ good_cmp_Z)). Qed.

Lemma os_date_leb_trans (x y z : OSRow) :
  os_date_leb x y = true -> os_date_leb y z = true -> os_date_leb x z = true.
Proof. apply (leb_of_trans _ (good_cmp_cell _ good_cmp_Z)). Qed.

(** In rows sorted by closing date, the last date that is not missing
    is the greatest. *)
Lemma last_notna_maior_data (g : list OSRow) :
  StronglySorted (fun a b => os_date_leb a b = true) g ->
  match last_notna data_fechamento_OS g with
  | Some d => (exists e, e ∈ g /\ data_fechamento_OS e = Some d)
              /\ forall e d', e ∈ g -> data_fechamento_OS e = Some d' -> (d' <= d)%Z
  | None => forall e, e ∈ g -> data_fechamento_OS e = None
  end.
Proof.
  induction 1 as [|x g Hs IH Hx]; [by intros e ?%elem_of_nil|].
  rewrite last_notna_cons. destruct (last_notna data_fechamento_OS g) as [d|].
  - destruct IH as [(e & He & Hed) Hmax]. split.
    + exists e. split; [by right|done].
    + intros e' d' [->|Hin]%elem_of_cons Hd'; [|by eapply Hmax].
      rewrite Forall_forall in Hx. specialize (Hx e He).
      unfold os_date_leb, date_leb in Hx. rewrite Hd', Hed in Hx. simpl in Hx.
      apply Z.compare_le_iff. intros E. by rewrite E in Hx.
  - destruct (data_fechamento_OS x) as [d|] eqn:Ex.
    + split; [exists x; split; [left|done]|].
      intros e' d' [->|Hin]%elem_of_cons Hd'; [rewrite Ex in Hd'; injection Hd' as <-; apply Z.le_refl|].
      rewrite (IH e' Hin) in Hd'. done.
    + intros e [->|Hin]%elem_of_cons; [done|by apply IH].
Qed.

(** X11. In the recomputed RELATORIO, DATA ÚLTIMA OS of a unit is the
    greatest closing date among the orders of the unit, and it is
    empty exactly when no order of the unit has a closing date. *)
Theorem data_ultima_os_e_a_maior `{Text} (wb : Workbook) :
  Forall2 (fun n r =>
             let ordens := filter (fun e => id_patrimonio e
                                            = Some (AtualizarMes.PATRIMONIO_STR n))
                                  (AtualizarMes.limpar_patrimonios (OS wb)) in
             (DATA_ULTIMA_OS r = None
              <-> forall e, e ∈ ordens -> data_fechamento_OS e = None)
             /\ forall d, DATA_ULTIMA_OS r = Some d ->
                  (exists e, e ∈ ordens /\ data_fechamento_OS e = Some d)
                  /\ forall e d', e ∈ ordens -> data_fechamento_OS e = Some d' -> (d' <= d)%Z)
          (NOTAS wb) (RELATORIO (AtualizarMes.recalcular_relatorio wb)).
Proof.
  unfold AtualizarMes.recalcular_relatorio. simpl.
  apply Forall2_fmap_r, Forall_Forall2_diag, Forall_forall. intros n _. cbv zeta.
  unfold AtualizarMes.linha_relatorio, AtualizarMes.ultima_os, AtualizarMes.os_sorted. simpl.
  set (os_df := AtualizarMes.limpar_patrimonios (OS wb)).
  set (u := AtualizarMes.PATRIMONIO_STR n).
  set (g := filter (fun r => id_patrimonio r = Some u) (sort_values os_date_leb os_df)).
  assert (Hg : forall e, e ∈ g <-> e ∈ filter (fun e => id_patrimonio e = Some u) os_df).
  { intros e. subst g. rewrite !list_elem_of_filter.
    by rewrite (sort_values_Permutation os_date_leb os_df). }
  assert (Hs : StronglySorted (fun a b => os_date_leb a b = true) g).
  { subst g. eapply (StronglySorted_filter_impl (fun a b => os_date_leb a b = true));
      [by intros|].
    apply sort_values_StronglySorted; [apply os_date_leb_total|apply os_date_leb_trans]. }
  pose proof (last_notna_maior_data g Hs) as Hlast.
  destruct (last_notna data_fechamento_OS g) as [d|].
  - destruct Hlast as [(e & He & Hed) Hmax]. split.
    + split; [done|]. intros Hnone. apply Hg in He. rewrite (Hnone e He) in Hed. done.
    + intros d0 [= <-]. split.
      * exists e. split; [by apply Hg|done].
      * intros e' d' He'. apply Hmax. by apply Hg.
  - split; [|done]. split; [|done]. intros _ e He. apply Hlast. by apply Hg.
Qed.

(** ** The location counters of the park *)

Lemma inferir_local_valores `{Text} (row : RelatorioRow) :
  AtualizarMes.inferir_local row
  ∈ ["RMA"; "INSTALADO"; "DESCONTINUADO"; "EM ESTOQUE"; "COM TÉCNICO"].
Proof.
  unfold AtualizarMes.inferir_local. cbv zeta.
  repeat match goal with |- context [if ?b then _ else _] => destruct b end;
    set_solver.
Qed.

Lemma load_data_relatorio (wb : Workbook) :
  Dados.relatorio (Dados.load_data wb)
  = Dados.carregar_relatorio (Dados.os (Dados.load_data wb)) <$> RELATORIO wb.
Proof.
  unfold Dados.load_data. destruct (Dados.limpar_os (OS wb)) as [os_limpo lim].
  by destruct (Dados.classificar (config wb)) as [obs cfg1].
Qed.

Lemma conta_cons {A} (mask : A -> bool) (r : A) (l : list A) :
  VisaoGeral.conta mask (r :: l)
  = ((if mask r then 1 else 0) + VisaoGeral.conta mask l)%nat.
Proof.
  unfold VisaoGeral.conta. rewrite filter_cons.
  destruct (mask r); [by rewrite decide_True|by rewrite decide_False].
Qed.

Lemma conta_le {A} (mask : A -> bool) (l : list A) :
  (VisaoGeral.conta mask l <= length l)%nat.
Proof. apply length_filter. Qed.

Lemma conta_cinco_locais (rel : list Dados.RelatorioCarregado) :
  Forall (fun r => exists v,
              LOCAL_EQUIPAMENTO (Dados.rel_row r) = Some v
              /\ v ∈ ["RMA"; "INSTALADO"; "DESCONTINUADO"; "EM ESTOQUE"; "COM TÉCNICO"]) rel ->
  (VisaoGeral.conta (VisaoGeral.local_is "INSTALADO") rel
   + VisaoGeral.conta (VisaoGeral.local_is "EM ESTOQUE") rel
   + VisaoGeral.conta (VisaoGeral.local_is "RMA") rel
   + VisaoGeral.conta (VisaoGeral.local_is "COM TÉCNICO") rel
   + VisaoGeral.conta (VisaoGeral.local_is "DESCONTINUADO") rel
   = length rel)%nat.
Proof.
  induction 1 as [|r l (v & Hv & Hin) Hl IH]; [done|].
  rewrite !conta_cons. unfold VisaoGeral.local_is at 1 3 5 7 9. rewrite Hv.
  cbn [cell_eqb length].
  repeat (apply elem_of_cons in Hin as [->|Hin]); [..|by apply elem_of_nil in Hin];
    repeat case_bool_decide; try done; lia.
Qed.

(** X12. After RELATORIO is recomputed and the workbook loaded, the
    four location counters of the park and the discontinued units
    account for every purchased unit, one row of NOTAS each. *)
Theorem kpis_repartem_o_parque `{Text} (wb : Workbook)
    (contratos : list Dados.ContratoCarregado) :
  let rel := Dados.relatorio (Dados.load_data (AtualizarMes.recalcular_relatorio wb)) in
  exists k, VisaoGeral.calcular_kpis_parque contratos rel = Ok k
    /\ VisaoGeral.total_com_nf k = length (NOTAS wb)
    /\ (VisaoGeral.instalados k + VisaoGeral.em_estoque k + VisaoGeral.em_rma k
        + VisaoGeral.com_tecnico k
        + VisaoGeral.conta (VisaoGeral.local_is "DESCONTINUADO") rel
        = VisaoGeral.total_com_nf k)%nat.
Proof.
  intros rel. unfold VisaoGeral.calcular_kpis_parque.
  destruct (taxa_pct_Ok (VisaoGeral.conta (VisaoGeral.local_is "INSTALADO") rel) (length rel))
    as (q & -> & _).
  simpl. eexists. split; [done|]. simpl.
  assert (Hrel : rel = Dados.carregar_relatorio
                         (Dados.os (Dados.load_data (AtualizarMes.recalcular_relatorio wb)))
                       <$> (AtualizarMes.linha_relatorio
                              (AtualizarMes.os_sorted (AtualizarMes.limpar_patrimonios (OS wb)))
                              (calcular_ciclo (AtualizarMes.limpar_patrimonios (OS wb)))
                            <$> NOTAS wb)).
  { subst rel. by rewrite load_data_relatorio. }
  split; [by rewrite Hrel, !length_fmap|].
  apply conta_cinco_locais. rewrite Hrel.
  apply Forall_fmap, Forall_fmap, Forall_forall. intros n _. simpl.
  eexists. split; [done|]. apply inferir_local_valores.
Qed.

(** ** The summary by invoice and model *)

Lemma elem_of_unique_from `{EqDecision A} (seen l : list A) (x : A) :
  x ∈ unique_from seen l <-> x ∈ l /\ x ∉ seen.
Proof.
  revert seen. induction l as [|y l IH]; intros seen; simpl.
  - rewrite elem_of_nil. by split; [|intros [[] _]].
  - case_bool_decide as Hy.
    + rewrite IH, elem_of_cons. split; [naive_solver|].
      intros [[->|Hx] Hn]; [done|by split].
    + rewrite elem_of_cons, IH, !elem_of_cons. split.
      * intros [->|[Hx Hn]]; [by split; [left|]|]. split; [by right|]. naive_solver.
      * intros [[->|Hx] Hn]; [by left|].
        destruct (decide (x = y)) as [->|Hxy]; [by left|]. right. split; [done|].
        intros [?|?]; done.
Qed.

Lemma NoDup_unique_from `{EqDecision A} (seen l : list A) : NoDup (unique_from seen l).
Proof.
  revert seen. induction l as [|y l IH]; intros seen; simpl; [constructor|].
  case_bool_decide as Hy; [done|]. constructor; [|done].
  rewrite elem_of_unique_from. intros [_ Hn]. apply Hn. by left.
Qed.

Lemma elem_of_unique `{EqDecision A} (l : list A) (x : A) : x ∈ unique l <-> x ∈ l.
Proof.
  unfold unique. rewrite elem_of_unique_from. split; [by intros [? _]|].
  intros Hx. split; [done|]. by intros ?%elem_of_nil.
Qed.

Lemma soma_indicador_0 {K} (Q : K -> Prop) `{!forall k, Decision (Q k)} (ks : list K) :
  (forall k, k ∈ ks -> ~ Q k) ->
  sum_list_with (fun k => if decide (Q k) then 1%nat else 0%nat) ks = 0%nat.
Proof.
  induction ks as [|k ks IH]; intros Hn; simpl; [done|].
  rewrite decide_False by (apply Hn; by left).
  rewrite IH; [done|]. intros k' Hk'. apply Hn. by right.
Qed.

Lemma soma_indicador_1 {K} (Q : K -> Prop) `{!forall k, Decision (Q k)}
    (ks : list K) (k0 : K) :
  NoDup ks -> (forall k, Q k <-> k = k0) -> k0 ∈ ks ->
  sum_list_with (fun k => if decide (Q k) then 1%nat else 0%nat) ks = 1%nat.
Proof.
  intros Hnd HQ. induction Hnd as [|k ks Hk Hnd IH]; intros Hin; simpl.
  - by apply elem_of_nil in Hin.
  - destruct (decide (Q k)) as [Qk|Qk].
    + apply HQ in Qk as ->. rewrite soma_indicador_0; [done|].
      intros k Hk' ->%HQ. done.
    + apply elem_of_cons in Hin as [->|Hin]; [by destruct Qk; apply HQ|]. by rewrite IH.
Qed.

(** Counting the rows of a frame key by key, over keys without
    repetition that cover the frame, counts every row that matches its
    own key once. *)
Lemma soma_por_chave {A K} (key : A -> K) (P : A -> K -> Prop) (G : A -> Prop)
    `{!forall r k, Decision (P r k)} `{!forall r, Decision (G r)}
    (ks : list K) (l : list A) :
  NoDup ks ->
  (forall r k, P r k <-> G r /\ key r = k) ->
  (forall r, r ∈ l -> key r ∈ ks) ->
  sum_list_with (fun k => length (filter (fun r => P r k) l)) ks = length (filter G l).
Proof.
  intros Hnd HP. induction l as [|r l IH]; intros Hks.
  - simpl. clear Hnd Hks. induction ks as [|k ks IHk]; [done|]. simpl. exact IHk.
  - assert (Hsplit : forall ks',
               sum_list_with (fun k => length (filter (fun r => P r k) (r :: l))) ks'
               = (sum_list_with (fun k => if decide (P r k) then 1%nat else 0%nat) ks'
                  + sum_list_with (fun k => length (filter (fun r => P r k) l)) ks')%nat).
    { induction ks' as [|k ks' IHk]; [done|]. simpl. rewrite IHk, filter_cons.
      destruct (decide (P r k)); simpl; lia. }
    rewrite Hsplit, IH by (intros r' Hr'; apply Hks; by right).
    rewrite filter_cons. destruct (decide (G r)) as [Gr|Gr].
    + rewrite (soma_indicador_1 _ ks (key r)); [done|done| |apply Hks; by left].
      intros k. rewrite HP. naive_solver.
    + rewrite soma_indicador_0; [done|]. intros k _ [? _]%HP. done.
Qed.

(** X13. The summary has one row for each pair of NF and DESCRICAO of
    the state table, no pair twice, and the COMPRADOS column adds up
    to the rows of the state table that have both cells: a unit whose
    model is missing is counted in no row. *)
Theorem resumo_nf_uma_linha_por_combinacao (relatorio : list Dados.RelatorioCarregado) :
  exists rows,
    VisaoGeral.gerar_resumo_nf relatorio = Ok rows
    /\ NoDup ((fun row => (VisaoGeral.res_NF row, VisaoGeral.res_MODELO row)) <$> rows)
    /\ (forall comb,
          comb ∈ (fun row => (VisaoGeral.res_NF row, VisaoGeral.res_MODELO row)) <$> rows
          <-> exists r, r ∈ relatorio
                /\ comb = (NF (Dados.rel_row r), DESCRICAO (Dados.rel_row r)))
    /\ sum_list_with VisaoGeral.COMPRADOS rows
       = length (filter (fun r => is_Some (NF (Dados.rel_row r))
                                  /\ is_Some (DESCRICAO (Dados.rel_row r))) relatorio).
Proof.
  unfold VisaoGeral.gerar_resumo_nf.
  set (key := fun r : Dados.RelatorioCarregado =>
                (NF (Dados.rel_row r), DESCRICAO (Dados.rel_row r))).
  set (combs := unique (key <$> relatorio)).
  edestruct (mapM_Ok_Forall2
               (VisaoGeral.resumo_combinacao relatorio)
               (fun comb row =>
                  (VisaoGeral.res_NF row, VisaoGeral.res_MODELO row) = comb
                  /\ VisaoGeral.COMPRADOS row
                     = length (filter (fun r => cell_eqb (NF (Dados.rel_row r)) comb.1 = true
                                                /\ cell_eqb (DESCRICAO (Dados.rel_row r)) comb.2
                                                   = true) relatorio))
               combs) as (rows & -> & Hall).
  { intros [nf modelo]. unfold VisaoGeral.resumo_combinacao.
    set (df_nf := filter _ relatorio).
    destruct (taxa_Ok (VisaoGeral.conta
                         (fun r => VisaoGeral.local_is "INSTALADO" r
                                   && VisaoGeral.status_is "NOVO" r) df_nf) (length df_nf))
      as (q1 & -> & _).
    destruct (taxa_Ok (VisaoGeral.conta (VisaoGeral.local_is "EM ESTOQUE") df_nf)
                      (length df_nf)) as (q2 & -> & _).
    destruct (taxa_Ok (VisaoGeral.conta (VisaoGeral.local_is "RMA") df_nf) (length df_nf))
      as (q3 & -> & _).
    simpl. eexists. split; [done|]. by simpl. }
  simpl. eexists. split; [done|].
  assert (Hkeys : (fun row => (VisaoGeral.res_NF row, VisaoGeral.res_MODELO row)) <$> rows
                  = combs).
  { clear -Hall. induction Hall as [|c row cs rows [Hc _] _ IH]; [done|].
    csimpl. by rewrite Hc, IH. }
  assert (Hsum : sum_list_with VisaoGeral.COMPRADOS rows
                 = sum_list_with
                     (fun comb =>
                        length (filter (fun r => cell_eqb (NF (Dados.rel_row r)) comb.1 = true
                                                 /\ cell_eqb (DESCRICAO (Dados.rel_row r)) comb.2
                                                    = true) relatorio)) combs).
  { clear -Hall. induction Hall as [|c row cs rows [_ Hc] _ IH]; [done|].
    simpl. by rewrite Hc, IH. }
  split; [rewrite sort_values_Permutation, Hkeys; apply NoDup_unique_from|].
  split.
  - intros comb. rewrite sort_values_Permutation, Hkeys. subst combs.
    rewrite elem_of_unique, list_elem_of_fmap. naive_solver.
  - rewrite sort_values_Permutation, Hsum. apply (soma_por_chave key).
    + apply NoDup_unique_from.
    + intros r [nf modelo]. subst key. simpl.
      destruct (NF (Dados.rel_row r)) as [a|], (DESCRICAO (Dados.rel_row r)) as [b|],
               nf as [a'|], modelo as [b'|]; simpl;
        rewrite ?bool_decide_eq_true; split;
        try (intros [? ?]; done);
        try (intros [[? ?] ?]; try done; by (exfalso; eapply is_Some_None; eauto)).
      * intros [-> ->]. split; [split; eauto|done].
      * intros [_ [= -> ->]]. done.
    + intros r Hr. subst combs. rewrite elem_of_unique, list_elem_of_fmap. by exists r.
Qed.

Lemma taxa_fraccao (num den : nat) (q : Q) :
  taxa num den = Ok q -> (num <= den)%nat ->
  (0 <= q)%Q /\ (q <= 1)%Q
  /\ (q * inject_Z (Z.of_nat den) == inject_Z (Z.of_nat num))%Q.
Proof.
  unfold taxa, truediv. destruct den as [|d].
  - simpl. intros [= <-] Hle. assert (num = 0%nat) as -> by lia. done.
  - change (0 <? S d)%nat with true. cbv iota.
    destruct (Z.of_nat (S d) =? 0)%Z eqn:E; [apply Z.eqb_eq in E; lia|]. intros [= <-] Hle.
    assert (Hd : (0 < inject_Z (Z.of_nat (S d)))%Q).
    { change 0%Q with (inject_Z 0). rewrite <- Zlt_Qlt. lia. }
    rewrite Qred_correct. split; [|split].
    + apply Qle_shift_div_l; [done|]. rewrite Qmult_0_l.
      change 0%Q with (inject_Z 0). rewrite <- Zle_Qle. lia.
    + apply Qle_shift_div_r; [done|]. rewrite Qmult_1_l. rewrite <- Zle_Qle. lia.
    + rewrite Qmult_comm. apply Qmult_div_r. intros H0. rewrite H0 in Hd.
      by apply Qlt_irrefl in Hd.
Qed.

(** The five states that a summary row counts exclude one another. *)
Lemma conta_estados_do_resumo (l : list Dados.RelatorioCarregado) :
  (VisaoGeral.conta (fun r => VisaoGeral.local_is "INSTALADO" r
                              && VisaoGeral.status_is "NOVO" r) l
   + VisaoGeral.conta (fun r => VisaoGeral.local_is "INSTALADO" r
                                && VisaoGeral.status_is "REUTILIZADO" r) l
   + VisaoGeral.conta (VisaoGeral.local_is "EM ESTOQUE") l
   + VisaoGeral.conta (VisaoGeral.local_is "RMA") l
   + VisaoGeral.conta (VisaoGeral.local_is "COM TÉCNICO") l
   <= length l)%nat.
Proof.
  induction l as [|r l IH]; [done|].
  rewrite !conta_cons. unfold VisaoGeral.local_is at 1 3 5 7 9.
  unfold VisaoGeral.status_is at 1 3. cbn [length].
  destruct (LOCAL_EQUIPAMENTO (Dados.rel_row r)) as [v|],
           (STATUS_EQUIPAMENTO (Dados.rel_row r)) as [s|]; cbn [cell_eqb andb];
    repeat case_bool_decide; simplify_eq; cbn [andb]; lia.
Qed.

(** X14. In every row of the summary the five state counters add up
    to at most COMPRADOS, and each of the three rates lies between 0
    and 1 and, multiplied by COMPRADOS, gives its counter back. *)
Theorem resumo_nf_contadores_e_taxas (relatorio : list Dados.RelatorioCarregado) :
  exists rows,
    VisaoGeral.gerar_resumo_nf relatorio = Ok rows
    /\ Forall (fun row =>
                 let comprados := inject_Z (Z.of_nat (VisaoGeral.COMPRADOS row)) in
                 (VisaoGeral.ATIVADOS_NOVOS row + VisaoGeral.ATIVADOS_REUTIL row
                  + VisaoGeral.EM_ESTOQUE row + VisaoGeral.EM_RMA row
                  + VisaoGeral.COM_TECNICO row <= VisaoGeral.COMPRADOS row)%nat
                 /\ (0 <= VisaoGeral.TAXA_ATIVACAO row <= 1
                     /\ VisaoGeral.TAXA_ATIVACAO row * comprados
                        == inject_Z (Z.of_nat (VisaoGeral.ATIVADOS_NOVOS row)))%Q
                 /\ (0 <= VisaoGeral.PERC_ESTOQUE row <= 1
                     /\ VisaoGeral.PERC_ESTOQUE row * comprados
                        == inject_Z (Z.of_nat (VisaoGeral.EM_ESTOQUE row)))%Q
                 /\ (0 <= VisaoGeral.PERC_RMA row <= 1
                     /\ VisaoGeral.PERC_RMA row * comprados
                        == inject_Z (Z.of_nat (VisaoGeral.EM_RMA row)))%Q) rows.
Proof.
  unfold VisaoGeral.gerar_resumo_nf.
  edestruct (mapM_Ok (VisaoGeral.resumo_combinacao relatorio)) as (rows & -> & Hrows);
    [|simpl; eexists; split; [done|]; rewrite sort_values_Permutation; exact Hrows].
  intros [nf modelo]. unfold VisaoGeral.resumo_combinacao.
  set (df_nf := filter _ relatorio).
  pose proof (conta_estados_do_resumo df_nf) as Hsoma.
  destruct (taxa_Ok (VisaoGeral.conta
                       (fun r => VisaoGeral.local_is "INSTALADO" r
                                 && VisaoGeral.status_is "NOVO" r) df_nf) (length df_nf))
    as (q1 & E1 & _).
  destruct (taxa_Ok (VisaoGeral.conta (VisaoGeral.local_is "EM ESTOQUE") df_nf)
                    (length df_nf)) as (q2 & E2 & _).
  destruct (taxa_Ok (VisaoGeral.conta (VisaoGeral.local_is "RMA") df_nf) (length df_nf))
    as (q3 & E3 & _).
  rewrite E1, E2, E3. simpl. eexists. split; [done|]. simpl.
  apply taxa_fraccao in E1 as (? & ? & ?); [|apply conta_le].
  apply taxa_fraccao in E2 as (? & ? & ?); [|apply conta_le].
  apply taxa_fraccao in E3 as (? & ? & ?); [|apply conta_le].
  repeat split; done.
Qed.
